(** * Argus Overview: the capture loop of [ui/main_tab.py]

    A shallow embedding of [WindowPreviewWidget] (the per-window alert
    state machine) and of [WindowManager] (registry of previews, pending
    capture requests, the capture cycle and its result drain), with the
    collaborators of the manager (capture system, alert detector) kept
    abstract behind two interfaces. *)

From Stdlib Require Import ZArith QArith Lia.
From stdpp Require Import gmap strings list.

Local Open Scope Z_scope.

(** ** Values that cross the interfaces *)

(** Modelled from the spec: [AlertLevel] is declared in
    [core/alert_detector.py], which is not part of the sources at hand.
    The widget distinguishes HIGH, MEDIUM and "anything else" when it paints
    ([paintEvent]); the spec names the severities LOW, MEDIUM and HIGH.  The
    severity NONE of the spec is the widget's [alert_level = None]. *)
Inductive AlertLevel : Type := LOW | MEDIUM | HIGH.

(** A severity as the spec speaks of it: [None] is NONE. *)
Definition Severity : Type := option AlertLevel.

(** A PIL image, as far as [pil_to_qimage] looks at it. *)
Record Image : Type := mkImage {
  img_mode : string;
  img_width : Z;
  img_height : Z;
  img_bytes : list Z
}.

(** The result of a call that may raise: [Raised e] carries the text of the
    exception. *)
Inductive Outcome (A : Type) : Type :=
| Returned (a : A)
| Raised (e : string).
Arguments Returned {A} a.
Arguments Raised {A} e.

(** What [capture_system.get_result] hands back when it is not [None]:
    [(request_id, window_id, image)]; a failed capture has no image. *)
Definition CaptureResult : Type := (string * string * option Image)%type.

(** ** Observable behaviour: log records and calls *)

Inductive LogLevel : Type := DEBUG | INFO | WARNING | ERROR.

(** One constructor per [self.logger.<level>(...)] line of the two classes. *)
Inductive LogRecord : Type :=
| LogAlertSet (window_id : string) (level : AlertLevel)
| LogUpdateFrameFailed (window_id : string)
| LogWindowManagerInitialized
| LogCaptureLoopStarted (refresh_rate interval : Z)
| LogCaptureLoopStopped
| LogAlreadyInPreview (window_id : string)
| LogAdded (window_id character_name : string)
| LogRemoved (window_id : string)
| LogRequestFailed (window_id e : string)
| LogProcessFailed (window_id e : string)
| LogProcessed (processed : nat).

Definition log_level (r : LogRecord) : LogLevel :=
  match r with
  | LogAlertSet _ _ => DEBUG
  | LogUpdateFrameFailed _ => ERROR
  | LogWindowManagerInitialized => INFO
  | LogCaptureLoopStarted _ _ => INFO
  | LogCaptureLoopStopped => INFO
  | LogAlreadyInPreview _ => WARNING
  | LogAdded _ _ => INFO
  | LogRemoved _ => INFO
  | LogRequestFailed _ _ => ERROR
  | LogProcessFailed _ _ => ERROR
  | LogProcessed _ => DEBUG
  end.

(** The calls the manager makes on its widgets and collaborators, the
    repaint requests of the widgets ([update()]) and the log lines, in the
    order in which they happen. *)
Inductive Event : Type :=
| Log (r : LogRecord)
| CallUpdateFrame (window_id : string) (image : option Image)
| CallSetAlert (window_id : string) (level : AlertLevel)
| CallUpdate (window_id : string)
| CallDeleteLater (window_id : string)
| CallCaptureWindowAsync (window_id : string) (scale : Q)
| CallGetResult
| CallAnalyzeFrame (window_id : string) (image : Image)
| CallRegisterCallback (window_id : string)
| CallUnregisterCallback (window_id : string).

(** ** QTimer *)

(** A timer counts milliseconds down to its next timeout. *)
Record QTimer : Type := mkTimer {
  isActive : bool;
  interval : Z;
  remaining : Z
}.

Definition QTimer_new : QTimer :=
  {| isActive := false; interval := 0; remaining := 0 |}.

Definition QTimer_start (msec : Z) (t : QTimer) : QTimer :=
  {| isActive := true; interval := msec; remaining := msec |}.

Definition QTimer_stop (t : QTimer) : QTimer :=
  {| isActive := false; interval := interval t; remaining := remaining t |}.

(** ** WindowPreviewWidget *)

Record WindowPreviewWidget : Type := mkWidget {
  window_id : string;
  character_name : string;
  current_pixmap : option Image;
  alert_level : Severity;
  alert_flash_counter : Z;
  zoom_factor : Q;
  isVisible : bool;
  flash_timer : QTimer
}.

(** [__init__]: no pixmap, no alert, 30% zoom, flash timer created but not
    started.  A widget that has not been shown yet is not visible. *)
Definition WindowPreviewWidget_init (wid name : string) : WindowPreviewWidget :=
  {| window_id := wid;
     character_name := name;
     current_pixmap := None;
     alert_level := None;
     alert_flash_counter := 0;
     zoom_factor := (3 # 10)%Q;
     isVisible := false;
     flash_timer := QTimer_new |}.

(** [QWidget.setVisible].  The field [isVisible] is what [isVisible()]
    answers, and Qt answers [True] only for a widget that is not hidden and
    whose ancestors up to the window are all visible: hiding always takes
    effect, showing takes effect when [ancestors_visible] (for a widget
    without a parent this is vacuously true). *)
Definition setVisible (ancestors_visible : bool) (v : bool) (f : WindowPreviewWidget)
  : WindowPreviewWidget :=
  {| window_id := window_id f;
     character_name := character_name f;
     current_pixmap := current_pixmap f;
     alert_level := alert_level f;
     alert_flash_counter := alert_flash_counter f;
     zoom_factor := zoom_factor f;
     isVisible := v && ancestors_visible;
     flash_timer := flash_timer f |}.

Definition set_flash_timer (t : QTimer) (f : WindowPreviewWidget) : WindowPreviewWidget :=
  {| window_id := window_id f;
     character_name := character_name f;
     current_pixmap := current_pixmap f;
     alert_level := alert_level f;
     alert_flash_counter := alert_flash_counter f;
     zoom_factor := zoom_factor f;
     isVisible := isVisible f;
     flash_timer := t |}.

(** A method of the widget returns the widget after the call and what the
    body of the method did that can be observed. *)
Definition Effect (A : Type) : Type := (A * list Event)%type.

(** [update_frame]: the conversion of [None] raises inside the [try] and is
    logged; the method itself never raises. *)
Definition update_frame (image : option Image) (f : WindowPreviewWidget)
  : Effect WindowPreviewWidget :=
  match image with
  | Some img =>
      ({| window_id := window_id f;
          character_name := character_name f;
          current_pixmap := Some img;
          alert_level := alert_level f;
          alert_flash_counter := alert_flash_counter f;
          zoom_factor := zoom_factor f;
          isVisible := isVisible f;
          flash_timer := flash_timer f |},
       [])
  | None => (f, [Log (LogUpdateFrameFailed (window_id f))])
  end.

(** [set_alert]: store the level, 30 flashes to go, start the 100 ms flash
    timer unless it is running. *)
Definition set_alert (level : AlertLevel) (f : WindowPreviewWidget)
  : Effect WindowPreviewWidget :=
  ({| window_id := window_id f;
      character_name := character_name f;
      current_pixmap := current_pixmap f;
      alert_level := Some level;
      alert_flash_counter := 30;
      zoom_factor := zoom_factor f;
      isVisible := isVisible f;
      flash_timer := if isActive (flash_timer f) then flash_timer f
                     else QTimer_start 100 (flash_timer f) |},
   [Log (LogAlertSet (window_id f) level)]).

(** [_flash_tick]: one flash less; at zero the timer stops and the level is
    cleared; a repaint is requested in every case. *)
Definition _flash_tick (f : WindowPreviewWidget) : Effect WindowPreviewWidget :=
  let counter := alert_flash_counter f - 1 in
  ({| window_id := window_id f;
      character_name := character_name f;
      current_pixmap := current_pixmap f;
      alert_level := if counter <=? 0 then None else alert_level f;
      alert_flash_counter := counter;
      zoom_factor := zoom_factor f;
      isVisible := isVisible f;
      flash_timer := if counter <=? 0 then QTimer_stop (flash_timer f)
                     else flash_timer f |},
   [CallUpdate (window_id f)]).

(** One millisecond of the widget's flash timer: when the timeout is due the
    timer is armed again and the slot [_flash_tick] runs. *)
Definition flash_timer_ms (f : WindowPreviewWidget) : Effect WindowPreviewWidget :=
  let t := flash_timer f in
  if isActive t then
    if remaining t <=? 1 then
      _flash_tick
        (set_flash_timer
           {| isActive := true; interval := interval t; remaining := interval t |} f)
    else
      (set_flash_timer
         {| isActive := true; interval := interval t; remaining := remaining t - 1 |} f,
       [])
  else (f, []).

(** [n] milliseconds pass for the widget.  A timeout that falls on the end
    of the last millisecond has run when [elapse_ms] returns: what is called
    on the widget next, at that very instant, comes after the tick. *)
Fixpoint elapse_ms (n : nat) (f : WindowPreviewWidget) : Effect WindowPreviewWidget :=
  match n with
  | O => (f, [])
  | S n' =>
      let '(f1, e1) := flash_timer_ms f in
      let '(f2, e2) := elapse_ms n' f1 in
      (f2, e1 ++ e2)
  end.

(** The alert state machine of the spec, read off the widget. *)
Inductive AlertState : Type := IDLE | ACTIVE.

Definition alert_state (f : WindowPreviewWidget) : AlertState :=
  match alert_level f with
  | Some _ => ACTIVE
  | None => IDLE
  end.

(** Milliseconds until the flash timer clears the alert, for a running
    timer: the rest of the current period and one period for each further
    flash. *)
Definition time_to_idle (f : WindowPreviewWidget) : Z :=
  remaining (flash_timer f) + (alert_flash_counter f - 1) * interval (flash_timer f).

(** The widget shows an alert and its flash timer is counting: the state
    [set_alert] leaves behind and the flash timer keeps until the last
    flash. *)
Definition flashing (f : WindowPreviewWidget) : Prop :=
  alert_state f = ACTIVE /\
  isActive (flash_timer f) = true /\
  interval (flash_timer f) = 100 /\
  1 <= remaining (flash_timer f) <= 100 /\
  1 <= alert_flash_counter f.

(** ** Insertion-ordered dictionaries

    [preview_frames] is a Python [dict] that the capture cycle iterates in
    insertion order: an association list, one binding per key. *)

Fixpoint dict_get {V : Type} (k : string) (d : list (string * V)) : option V :=
  match d with
  | [] => None
  | (k', v) :: d' => if decide (k' = k) then Some v else dict_get k d'
  end.

(** [k in d] *)
Definition dict_mem {V : Type} (k : string) (d : list (string * V)) : bool :=
  match dict_get k d with
  | Some _ => true
  | None => false
  end.

(** The object stored under [k] is replaced by its mutated self; the
    binding keeps its place. *)
Fixpoint dict_replace {V : Type} (k : string) (v : V) (d : list (string * V))
  : list (string * V) :=
  match d with
  | [] => []
  | (k', v') :: d' =>
      if decide (k' = k) then (k', v) :: d' else (k', v') :: dict_replace k v d'
  end.

(** [d.pop(k)]: the binding of [k] goes. *)
Fixpoint dict_pop {V : Type} (k : string) (d : list (string * V))
  : list (string * V) :=
  match d with
  | [] => []
  | (k', v') :: d' =>
      if decide (k' = k) then dict_pop k d' else (k', v') :: dict_pop k d'
  end.

Definition dict_keys {V : Type} (d : list (string * V)) : list string :=
  map fst d.

(** ** The collaborators of the manager *)

(** [capture_system]: asynchronous submission and non-blocking poll.  Both
    may change the state of the capture system. *)
Class CaptureSystem (B : Type) : Type := {
  capture_window_async : B -> string -> Q -> B * Outcome string;
  get_result : B -> B * option CaptureResult
}.

(** [alert_detector]: frame analysis and the table of per-window callbacks.
    The callback registered for a window is the closure [alert_callback] of
    [add_window], which the window id determines. *)
Class AlertDetector (D : Type) : Type := {
  analyze_frame : D -> string -> Image -> D * Outcome (option AlertLevel);
  register_callback : D -> string -> D;
  unregister_callback : D -> string -> D
}.

(** ** WindowManager *)

Record WindowManager (B D : Type) : Type := mkManager {
  preview_frames : list (string * WindowPreviewWidget);
  pending_requests : gmap string string;
  refresh_rate : Z;
  capture_timer : QTimer;
  capture_system : B;
  alert_detector : D;
  trace : list Event
}.
Arguments mkManager {B D}.
Arguments preview_frames {B D}.
Arguments pending_requests {B D}.
Arguments refresh_rate {B D}.
Arguments capture_timer {B D}.
Arguments capture_system {B D}.
Arguments alert_detector {B D}.
Arguments trace {B D}.

Section Manager.
Context {B D : Type} `{CaptureSystem B} `{AlertDetector D}.

Local Abbreviation Manager := (WindowManager B D).

Definition set_preview_frames (d : list (string * WindowPreviewWidget)) (w : Manager)
  : Manager :=
  mkManager d (pending_requests w) (refresh_rate w) (capture_timer w)
            (capture_system w) (alert_detector w) (trace w).

Definition set_pending_requests (p : gmap string string) (w : Manager) : Manager :=
  mkManager (preview_frames w) p (refresh_rate w) (capture_timer w)
            (capture_system w) (alert_detector w) (trace w).

Definition set_rate (r : Z) (w : Manager) : Manager :=
  mkManager (preview_frames w) (pending_requests w) r (capture_timer w)
            (capture_system w) (alert_detector w) (trace w).

Definition set_capture_timer (t : QTimer) (w : Manager) : Manager :=
  mkManager (preview_frames w) (pending_requests w) (refresh_rate w) t
            (capture_system w) (alert_detector w) (trace w).

Definition set_capture_system (b : B) (w : Manager) : Manager :=
  mkManager (preview_frames w) (pending_requests w) (refresh_rate w) (capture_timer w)
            b (alert_detector w) (trace w).

Definition set_alert_detector (d : D) (w : Manager) : Manager :=
  mkManager (preview_frames w) (pending_requests w) (refresh_rate w) (capture_timer w)
            (capture_system w) d (trace w).

Definition emit_all (evs : list Event) (w : Manager) : Manager :=
  mkManager (preview_frames w) (pending_requests w) (refresh_rate w) (capture_timer w)
            (capture_system w) (alert_detector w) (trace w ++ evs).

Definition emit (ev : Event) (w : Manager) : Manager := emit_all [ev] w.

(** The widget stored under [wid] after a method mutated it. *)
Definition store_frame (wid : string) (fe : Effect WindowPreviewWidget) (w : Manager)
  : Manager :=
  emit_all (snd fe) (set_preview_frames (dict_replace wid (fst fe) (preview_frames w)) w).

(** [__init__] *)
Definition WindowManager_init (cs : B) (det : D) : Manager :=
  mkManager [] ∅ 30 QTimer_new cs det [Log LogWindowManagerInitialized].

(** [start_capture_loop]: [interval = 1000 // self.refresh_rate].  The rate
    is 30 or a value clamped to 1..60, never zero. *)
Definition start_capture_loop (w : Manager) : Manager :=
  let interval := 1000 / refresh_rate w in
  emit (Log (LogCaptureLoopStarted (refresh_rate w) interval))
       (set_capture_timer (QTimer_start interval (capture_timer w)) w).

Definition stop_capture_loop (w : Manager) : Manager :=
  emit (Log LogCaptureLoopStopped)
       (set_capture_timer (QTimer_stop (capture_timer w)) w).

(** [set_refresh_rate]: [max(1, min(60, fps))], and a running loop is
    stopped and started again. *)
Definition set_refresh_rate (fps : Z) (w : Manager) : Manager :=
  let w1 := set_rate (Z.max 1 (Z.min 60 fps)) w in
  if isActive (capture_timer w1) then start_capture_loop (stop_capture_loop w1)
  else w1.

(** [add_window]: [None] when the id is already previewed. *)
Definition add_window (wid name : string) (w : Manager)
  : option WindowPreviewWidget * Manager :=
  if dict_mem wid (preview_frames w) then
    (None, emit (Log (LogAlreadyInPreview wid)) w)
  else
    let frame := WindowPreviewWidget_init wid name in
    let w1 := set_preview_frames (preview_frames w ++ [(wid, frame)]) w in
    let w2 := emit (CallRegisterCallback wid)
                   (set_alert_detector (register_callback (alert_detector w1) wid) w1) in
    (Some frame, emit (Log (LogAdded wid name)) w2).

(** The closure [alert_callback] that [add_window] registers for [wid]. *)
Definition alert_callback (wid : string) (level : AlertLevel) (w : Manager) : Manager :=
  match dict_get wid (preview_frames w) with
  | Some f => store_frame wid (set_alert level f) (emit (CallSetAlert wid level) w)
  | None => w
  end.

(** [remove_window] *)
Definition remove_window (wid : string) (w : Manager) : Manager :=
  if dict_mem wid (preview_frames w) then
    let w1 := emit (CallUnregisterCallback wid)
                   (set_alert_detector (unregister_callback (alert_detector w) wid) w) in
    let w2 := emit (CallDeleteLater wid)
                   (set_preview_frames (dict_pop wid (preview_frames w1)) w1) in
    emit (Log (LogRemoved wid)) w2
  else w.

(** The body of the [for] loop of [_capture_cycle] for one item of
    [preview_frames]. *)
Definition request_capture (w : Manager) (item : string * WindowPreviewWidget) : Manager :=
  let '(wid, frame) := item in
  if isVisible frame then
    let '(b', r) := capture_window_async (capture_system w) wid (zoom_factor frame) in
    let w1 := set_capture_system b' (emit (CallCaptureWindowAsync wid (zoom_factor frame)) w) in
    match r with
    | Returned request_id =>
        set_pending_requests (<[request_id := wid]> (pending_requests w1)) w1
    | Raised e => emit (Log (LogRequestFailed wid e)) w1
    end
  else w.

Definition request_captures (w : Manager) : Manager :=
  fold_left request_capture (preview_frames w) w.

(** One call of [capture_system.get_result(timeout=0.001)]. *)
Definition poll (w : Manager) : Manager * option CaptureResult :=
  let '(b', res) := get_result (capture_system w) in
  (set_capture_system b' (emit CallGetResult w), res).

(** The body of the [while] loop of [_process_capture_results] after a
    result was unpacked. *)
Definition process_result (r : CaptureResult) (w : Manager) : Manager :=
  let '(request_id, wid, image) := r in
  let w1 :=
    match dict_get wid (preview_frames w) with
    | Some f =>
        let w_a := store_frame wid (update_frame image f)
                               (emit (CallUpdateFrame wid image) w) in
        match image with
        | Some img =>
            let '(d', res) := analyze_frame (alert_detector w_a) wid img in
            let w_b := set_alert_detector d' (emit (CallAnalyzeFrame wid img) w_a) in
            match res with
            | Returned (Some level) =>
                match dict_get wid (preview_frames w_b) with
                | Some f' =>
                    store_frame wid (set_alert level f') (emit (CallSetAlert wid level) w_b)
                | None => emit (Log (LogProcessFailed wid "KeyError")) w_b
                end
            | Returned None => w_b
            | Raised e => emit (Log (LogProcessFailed wid e)) w_b
            end
        | None => w_a
        end
    | None => w
    end in
  set_pending_requests (delete request_id (pending_requests w1)) w1.

(** The [while True] loop: [fuel] bounds the number of polls, [None] means
    the bound was reached before the capture system ran empty. *)
Fixpoint drain_loop (fuel : nat) (processed : nat) (w : Manager) : option Manager :=
  match fuel with
  | O => None
  | S fuel' =>
      match poll w with
      | (w1, None) =>
          Some (if (0 <? processed)%nat then emit (Log (LogProcessed processed)) w1 else w1)
      | (w1, Some r) => drain_loop fuel' (S processed) (process_result r w1)
      end
  end.

Definition _process_capture_results (fuel : nat) (w : Manager) : option Manager :=
  drain_loop fuel 0%nat w.

(** [_capture_cycle], the slot of the capture timer. *)
Definition _capture_cycle (fuel : nat) (w : Manager) : option Manager :=
  _process_capture_results fuel (request_captures w).

Definition get_active_window_count (w : Manager) : nat :=
  length (preview_frames w).

(** One millisecond for the flash timers of all previews. *)
Fixpoint frames_ms (d : list (string * WindowPreviewWidget))
  : Effect (list (string * WindowPreviewWidget)) :=
  match d with
  | [] => ([], [])
  | (k, f) :: d' =>
      let '(f', e) := flash_timer_ms f in
      let '(d'', e') := frames_ms d' in
      ((k, f') :: d'', e ++ e')
  end.

Definition flash_timers_ms (w : Manager) : Manager :=
  let '(d, e) := frames_ms (preview_frames w) in
  emit_all e (set_preview_frames d w).

Fixpoint flash_timers_elapse (n : nat) (w : Manager) : Manager :=
  match n with
  | O => w
  | S n' => flash_timers_elapse n' (flash_timers_ms w)
  end.

(** The drain unrolled along the results [rs] that the polls return: each
    is polled and processed, and the last poll finds nothing. *)
Fixpoint drain_over (rs : list CaptureResult) (processed : nat) (w : Manager) : Manager :=
  match rs with
  | [] =>
      let w1 := fst (poll w) in
      if (0 <? processed)%nat then emit (Log (LogProcessed processed)) w1 else w1
  | r :: rs' => drain_over rs' (S processed) (process_result r (fst (poll w)))
  end.

(** The capture system answers the next polls with the results [rs], in
    this order, and then with [None]. *)
Inductive yields : B -> list CaptureResult -> B -> Prop :=
| yields_empty b b' :
    get_result b = (b', None) -> yields b [] b'
| yields_result b b1 r rs b' :
    get_result b = (b1, Some r) -> yields b1 rs b' -> yields b (r :: rs) b'.

End Manager.

(** ** Reading a trace *)

(** The window whose frame consumer, analysis or alert trigger a call
    invokes. *)
Definition callback_target (e : Event) : option string :=
  match e with
  | CallUpdateFrame k _ | CallAnalyzeFrame k _ | CallSetAlert k _ => Some k
  | _ => None
  end.

Definition as_log (e : Event) : option LogRecord :=
  match e with Log r => Some r | _ => None end.

Definition as_poll (e : Event) : option unit :=
  match e with CallGetResult => Some tt | _ => None end.

Definition as_submit (wid : string) (e : Event) : option Q :=
  match e with
  | CallCaptureWindowAsync k scale => if decide (k = wid) then Some scale else None
  | _ => None
  end.

Definition as_any_submit (e : Event) : option (string * Q) :=
  match e with
  | CallCaptureWindowAsync k scale => Some (k, scale)
  | _ => None
  end.

Definition as_update_frame (wid : string) (e : Event) : option (option Image) :=
  match e with
  | CallUpdateFrame k image => if decide (k = wid) then Some image else None
  | _ => None
  end.

(** An alert delivered to the preview of [wid], with its severity. *)
Definition as_alert (wid : string) (e : Event) : option Severity :=
  match e with
  | CallSetAlert k level => if decide (k = wid) then Some (Some level) else None
  | _ => None
  end.

Definition as_register (wid : string) (e : Event) : option unit :=
  match e with
  | CallRegisterCallback k => if decide (k = wid) then Some tt else None
  | _ => None
  end.

(** The log lines of a trace. *)
Definition log_records (tr : list Event) : list LogRecord := omap as_log tr.

(** Number of [get_result] calls. *)
Definition poll_calls (tr : list Event) : nat := length (omap as_poll tr).

(** The scales of the [capture_window_async] calls for [wid]. *)
Definition submit_calls (wid : string) (tr : list Event) : list Q :=
  omap (as_submit wid) tr.

(** All [capture_window_async] calls. *)
Definition all_submit_calls (tr : list Event) : list (string * Q) :=
  omap as_any_submit tr.

(** The images of the [update_frame] calls on the preview of [wid]. *)
Definition update_frame_calls (wid : string) (tr : list Event) : list (option Image) :=
  omap (as_update_frame wid) tr.

(** The severities of the alerts delivered to the preview of [wid]. *)
Definition alert_calls (wid : string) (tr : list Event) : list Severity :=
  omap (as_alert wid) tr.

(** Number of callback registrations for [wid]. *)
Definition register_calls (wid : string) (tr : list Event) : nat :=
  length (omap (as_register wid) tr).

(** No event of [tr] is a callback for [wid]. *)
Definition no_callback_for (wid : string) (tr : list Event) : Prop :=
  Forall (fun e => callback_target e <> Some wid) tr.

(** The images that the results [rs] carry for [wid], in order. *)
Fixpoint frames_for (wid : string) (rs : list CaptureResult) : list (option Image) :=
  match rs with
  | [] => []
  | (_, k, image) :: rs' =>
      if decide (k = wid) then image :: frames_for wid rs' else frames_for wid rs'
  end.

(** The visible previews with their scales, in the order of the dict. *)
Fixpoint visible_items (d : list (string * WindowPreviewWidget)) : list (string * Q) :=
  match d with
  | [] => []
  | (k, f) :: d' =>
      if isVisible f then (k, zoom_factor f) :: visible_items d' else visible_items d'
  end.

(** ** The words of the spec, for comparison *)

(** [round(a / b)] for [b > 0], Python's rounding: to the nearest integer,
    a tie to the even one. *)
Definition round_div (a b : Z) : Z :=
  let q := a / b in
  let r := a mod b in
  if 2 * r <? b then q
  else if b <? 2 * r then q + 1
  else if Z.even q then q else q + 1.

(** The tick interval as the spec states it: [round(1000 / rate_hz)] with
    [rate_hz] clamped to 1..60. *)
Definition spec_interval (rate_hz : Z) : Z :=
  round_div 1000 (Z.max 1 (Z.min 60 rate_hz)).

(** ** Scripted collaborators, for running the manager on examples *)

(** A capture system that answers submissions and polls from two scripts. *)
Record ScriptedCapture : Type := mkScripted {
  submissions : list (Outcome string);
  results : list CaptureResult
}.

#[global] Instance scripted_capture : CaptureSystem ScriptedCapture := {
  capture_window_async b wid scale :=
    match submissions b with
    | [] => (b, Raised "saturated")
    | o :: rest => (mkScripted rest (results b), o)
    end;
  get_result b :=
    match results b with
    | [] => (b, None)
    | r :: rest => (mkScripted (submissions b) rest, Some r)
    end
}.

(** A detector that answers the analyses from a script and keeps the set of
    registered windows. *)
Record ScriptedDetector : Type := mkDetector {
  analyses : list (Outcome (option AlertLevel));
  callbacks : gset string
}.

#[global] Instance scripted_detector : AlertDetector ScriptedDetector := {
  analyze_frame d wid img :=
    match analyses d with
    | [] => (d, Returned None)
    | o :: rest => (mkDetector rest (callbacks d), o)
    end;
  register_callback d wid := mkDetector (analyses d) ({[wid]} ∪ callbacks d);
  unregister_callback d wid := mkDetector (analyses d) (callbacks d ∖ {[wid]})
}.

Definition a_frame : Image :=
  {| img_mode := "RGB"; img_width := 2; img_height := 1; img_bytes := [0; 0; 0; 255; 255; 255] |}.

(** A manager with no scripted answers. *)
Definition idle_manager : WindowManager ScriptedCapture ScriptedDetector :=
  WindowManager_init (mkScripted [] []) (mkDetector [] ∅).

(** The preview of [wid] on display: [MainTab] has added it to its layout,
    the tab is on screen and the layout has shown the widget. *)
Definition show (wid : string) (w : WindowManager ScriptedCapture ScriptedDetector)
  : WindowManager ScriptedCapture ScriptedDetector :=
  match dict_get wid (preview_frames w) with
  | Some f =>
      set_preview_frames (dict_replace wid (setVisible true true f) (preview_frames w)) w
  | None => w
  end.

(** The alert scenario of the spec on a single preview: HIGH at t = 0, and
    MEDIUM when the flash timer has counted [ms] milliseconds since.  The
    ticks of the timer fall on t = 100, 200, ...; after [ms] milliseconds
    those up to t = [ms] have run.  So [retriggered_after 1500] is the
    trigger at t = 1500 ms that comes after the tick due at that instant,
    and [retriggered_after 1499] is the preview as a trigger finds it that
    comes ahead of that tick. *)
Definition preview_w1 : WindowPreviewWidget := WindowPreviewWidget_init "w1" "Pilot".

Definition after_high : WindowPreviewWidget := fst (set_alert HIGH preview_w1).

Definition retriggered_after (ms : nat) : WindowPreviewWidget :=
  fst (set_alert MEDIUM (fst (elapse_ms ms after_high))).

(** Two previews "w1" and "w2", the first one shown, on scripted
    collaborators. *)
Definition two_previews (subs : list (Outcome string)) (res : list CaptureResult)
    (ans : list (Outcome (option AlertLevel)))
  : WindowManager ScriptedCapture ScriptedDetector :=
  show "w1"
    (snd (add_window "w2" "Bob"
       (snd (add_window "w1" "Alice"
          (WindowManager_init (mkScripted subs res) (mkDetector ans ∅)))))).

(** A frame for "w1" is waiting and its analysis will say HIGH. *)
Definition high_alert_pending : WindowManager ScriptedCapture ScriptedDetector :=
  two_previews [] [("r1", "w1", Some a_frame)] [Returned (Some HIGH)].

(** The request id "r1" is pending for "w2" and the capture system will
    hand it out once more, for "w1". *)
Definition reused_request_id : WindowManager ScriptedCapture ScriptedDetector :=
  set_pending_requests {[ "r1" := "w2" ]} (two_previews [Returned "r1"] [] []).

(** The manager after the waiting frame was drained: the alert HIGH has
    been delivered to the preview "w1". *)
Definition high_alert_delivered : WindowManager ScriptedCapture ScriptedDetector :=
  match _process_capture_results 2 high_alert_pending with
  | Some w => w
  | None => high_alert_pending
  end.

(** The severity shown by the preview of [wid]. *)
Definition preview_alert_level {B D : Type} (wid : string) (w : WindowManager B D)
  : option Severity :=
  option_map alert_level (dict_get wid (preview_frames w)).

(** Requests "r1" for "w1" and "r2" for "w2" are in flight; their frames
    will be polled later, and the analysis of a frame will say HIGH. *)
Definition two_in_flight : WindowManager ScriptedCapture ScriptedDetector :=
  set_pending_requests {[ "r1" := "w1"; "r2" := "w2" ]}
    (two_previews []
       [("r1", "w1", Some a_frame); ("r2", "w2", Some a_frame)]
       [Returned (Some HIGH)]).

(** The preview "w1" of [two_previews]. *)
Definition shown_w1 : WindowPreviewWidget :=
  setVisible true true (WindowPreviewWidget_init "w1" "Alice").

(** The scales of the submissions for [wid] among [l]. *)
Fixpoint scales_for (wid : string) (l : list (string * Q)) : list Q :=
  match l with
  | [] => []
  | (k, scale) :: l' =>
      if decide (k = wid) then scale :: scales_for wid l' else scales_for wid l'
  end.

(** ** The rest of the preview widget *)

(** The widget is at rest: no alert and the flash timer stopped, as after
    [__init__] and after the last flash. *)
Definition resting (f : WindowPreviewWidget) : Prop :=
  alert_level f = None /\ isActive (flash_timer f) = false.

(** The states a widget is in between two calls. *)
Definition settled (f : WindowPreviewWidget) : Prop := resting f \/ flashing f.

Record QColor : Type := mkColor { red : Z; green : Z; blue : Z; alpha : Z }.

(** The colours of [paintEvent]: red for HIGH, yellow for MEDIUM, green for
    every other level. *)
Definition alert_color (level : AlertLevel) : QColor :=
  match level with
  | HIGH => mkColor 255 0 0 200
  | MEDIUM => mkColor 255 255 0 200
  | LOW => mkColor 0 255 0 200
  end.

(** [paintEvent], the alert border: drawn when
    [self.alert_level and self.alert_flash_counter > 0]. *)
Definition alert_border (f : WindowPreviewWidget) : option QColor :=
  match alert_level f with
  | Some level => if 0 <? alert_flash_counter f then Some (alert_color level) else None
  | None => None
  end.

(** ** Reading the outcome of a drain *)

(** The image a preview of [wid] shows after the results [rs], when it
    showed [shown] before: the last image that came for [wid]; a failed
    capture leaves what is shown. *)
Fixpoint last_image (wid : string) (rs : list CaptureResult) (shown : option Image)
  : option Image :=
  match rs with
  | [] => shown
  | (_, k, image) :: rs' =>
      last_image wid rs'
        (if decide (k = wid)
         then match image with Some img => Some img | None => shown end
         else shown)
  end.

(** The request ids of the results [rs]. *)
Definition request_ids (rs : list CaptureResult) : list string :=
  map (fun r => fst (fst r)) rs.

(** The pixmap shown by the preview of [wid]. *)
Definition preview_pixmap {B D : Type} (wid : string) (w : WindowManager B D)
  : option (option Image) :=
  option_map current_pixmap (dict_get wid (preview_frames w)).

(** A frame for "w1" is waiting, and behind it a failed capture for "w1". *)
Definition frame_then_failure : WindowManager ScriptedCapture ScriptedDetector :=
  two_previews [] [("r1", "w1", Some a_frame); ("r2", "w1", None)] [].

(** ** MainTab *)

(** The texts that [MainTab] writes to its status label. *)
Inductive StatusText : Type :=
| StatusReady
| StatusImported (added : nat)
| StatusAllAlreadyImported (skipped : nat)
| StatusNoNewWindows
| StatusNoWindowsInPreview
| StatusCapturing (count : nat) (fps : Z)
| StatusMinimized (count : nat).

(** The log lines of [MainTab], as far as it is modelled. *)
Inductive TabLogRecord : Type :=
| TabLogInitialized
| TabLogImportStarted
| TabLogImported (added skipped : nat)
| TabLogThumbnails (shown : bool)
| TabLogRefreshRateChanged (fps : Z)
| TabLogMinimized (count : nat)
| TabLogFocusUnknown
| TabLogMinimizeError (e : string).

(** What [MainTab] does besides changing its manager: log lines, message
    boxes, the signals it emits and connects, the widgets it adds to its
    layout and the [minimize_window] calls on the capture system. *)
Inductive TabEvent : Type :=
| TabLog (r : TabLogRecord)
| MessageBoxInformation (title : string)
| MessageBoxQuestion (title : string)
| ConnectSignals (window_id : string)
| LayoutAddWidget (window_id : string)
| EmitCharacterDetected (window_id char_name : string)
| EmitThumbnailsToggled (visible : bool)
| CallMinimizeWindow (window_id : string).

Record MainTab (B D : Type) : Type := mkTab {
  window_manager : WindowManager B D;
  _thumbnails_visible : bool;
  status_label : StatusText;
  active_count_label : nat;
  tab_trace : list TabEvent
}.
Arguments mkTab {B D}.
Arguments window_manager {B D}.
Arguments _thumbnails_visible {B D}.
Arguments status_label {B D}.
Arguments active_count_label {B D}.
Arguments tab_trace {B D}.

(** The management calls of the capture system that [MainTab] makes; they
    return whether the window manager of the desktop did as asked. *)
Class WindowControl (B : Type) : Type := {
  minimize_window : B -> string -> B * Outcome bool
}.

Section Tab.
Context {B D : Type} `{CaptureSystem B} `{AlertDetector D} `{WindowControl B}.

Local Abbreviation Tab := (MainTab B D).

Definition set_window_manager (w : WindowManager B D) (t : Tab) : Tab :=
  mkTab w (_thumbnails_visible t) (status_label t) (active_count_label t) (tab_trace t).

Definition set_status_label (text : StatusText) (t : Tab) : Tab :=
  mkTab (window_manager t) (_thumbnails_visible t) text (active_count_label t) (tab_trace t).

Definition tab_emit (evs : list TabEvent) (t : Tab) : Tab :=
  mkTab (window_manager t) (_thumbnails_visible t) (status_label t) (active_count_label t)
        (tab_trace t ++ evs).

(** [__init__]: a manager of its own with the capture loop started, the
    status bar reading "Ready" and "Active: 0". *)
Definition MainTab_init (cs : B) (det : D) : Tab :=
  mkTab (start_capture_loop (WindowManager_init cs det)) true StatusReady 0
        [TabLog TabLogInitialized].

(** [_update_status] *)
Definition _update_status (t : Tab) : Tab :=
  let count := get_active_window_count (window_manager t) in
  mkTab (window_manager t) (_thumbnails_visible t)
        (if (count =? 0)%nat then StatusNoWindowsInPreview
         else StatusCapturing count (refresh_rate (window_manager t)))
        count (tab_trace t).

(** The body of the [for] loop of [one_click_import] for one scanned
    window, with the two counters. *)
Definition import_window (acc : Tab * nat * nat) (win : string * string * string)
  : Tab * nat * nat :=
  let '(t, added_count, skipped_count) := acc in
  let '(wid, window_title, char_name) := win in
  if dict_mem wid (preview_frames (window_manager t)) then
    (t, added_count, S skipped_count)
  else
    match add_window wid char_name (window_manager t) with
    | (Some frame, w') =>
        (tab_emit [ConnectSignals wid; LayoutAddWidget wid;
                   EmitCharacterDetected wid char_name]
                  (set_window_manager w' t),
         S added_count, skipped_count)
    | (None, w') => (set_window_manager w' t, added_count, skipped_count)
    end.

(** [one_click_import], on the windows that [scan_eve_windows()] found. *)
Definition one_click_import (eve_windows : list (string * string * string)) (t : Tab) : Tab :=
  let t0 := tab_emit [TabLog TabLogImportStarted] t in
  match eve_windows with
  | [] => tab_emit [MessageBoxInformation "No EVE Windows Found"] t0
  | _ =>
      let '(t1, added_count, skipped_count) :=
        fold_left import_window eve_windows (t0, 0%nat, 0%nat) in
      let t2 :=
        if (0 <? added_count)%nat then
          tab_emit [TabLog (TabLogImported added_count skipped_count)]
                   (set_status_label (StatusImported added_count) t1)
        else if (0 <? skipped_count)%nat then
          set_status_label (StatusAllAlreadyImported skipped_count) t1
        else set_status_label StatusNoNewWindows t1 in
      _update_status t2
  end.

(** [toggle_thumbnails_visibility].  The previews are children of the
    container of the tab's scroll area; [on_screen] tells whether that
    container is visible when the method runs. *)
Definition toggle_thumbnails_visibility (on_screen : bool) (t : Tab) : Tab :=
  let visible := negb (_thumbnails_visible t) in
  let w := window_manager t in
  let w' := set_preview_frames
              (map (fun kf => (fst kf, setVisible on_screen visible (snd kf)))
                   (preview_frames w)) w in
  mkTab w' visible (status_label t) (active_count_label t)
        (tab_trace t ++ [EmitThumbnailsToggled visible; TabLog (TabLogThumbnails visible)]).

(** [_on_window_removed] *)
Definition _on_window_removed (wid : string) (t : Tab) : Tab :=
  _update_status (set_window_manager (remove_window wid (window_manager t)) t).

(** [_remove_all_windows]; [yes] is the answer to the question. *)
Definition _remove_all_windows (yes : bool) (t : Tab) : Tab :=
  match preview_frames (window_manager t) with
  | [] => t
  | _ =>
      let t0 := tab_emit [MessageBoxQuestion "Remove All Windows"] t in
      if yes then
        let window_ids := dict_keys (preview_frames (window_manager t0)) in
        _update_status
          (set_window_manager
             (fold_left (fun w wid => remove_window wid w) window_ids (window_manager t0)) t0)
      else t0
  end.

(** [_on_refresh_rate_changed] *)
Definition _on_refresh_rate_changed (value : Z) (t : Tab) : Tab :=
  tab_emit [TabLog (TabLogRefreshRateChanged value)]
           (set_window_manager (set_refresh_rate value (window_manager t)) t).

(** The [for] loop of [minimize_inactive_windows] over the ids still to
    visit: an exception of [minimize_window] ends it. *)
Fixpoint minimize_others (focused_id : string) (ids : list string) (b : B)
    (minimized_count : nat) : B * list TabEvent * Outcome nat :=
  match ids with
  | [] => (b, [], Returned minimized_count)
  | wid :: ids' =>
      if decide (wid = focused_id) then minimize_others focused_id ids' b minimized_count
      else
        match minimize_window b wid with
        | (b1, Returned ok) =>
            let '(b2, evs, res) :=
              minimize_others focused_id ids' b1
                (if ok then S minimized_count else minimized_count) in
            (b2, CallMinimizeWindow wid :: evs, res)
        | (b1, Raised e) => (b1, [CallMinimizeWindow wid], Raised e)
        end
  end.

(** [minimize_inactive_windows].  [xdotool] is what
    [subprocess.run(['xdotool', 'getwindowfocus'], ...)] does: it raises or
    returns a return code and the text it printed; [strip] is [str.strip]. *)
Definition minimize_inactive_windows (strip : string -> string)
    (xdotool : Outcome (Z * string)) (t : Tab) : Tab :=
  match xdotool with
  | Raised e => tab_emit [TabLog (TabLogMinimizeError e)] t
  | Returned (returncode, stdout) =>
      if (returncode =? 0)%Z then
        let focused_id := strip stdout in
        let w := window_manager t in
        let '(b', evs, res) :=
          minimize_others focused_id (dict_keys (preview_frames w)) (capture_system w) 0%nat in
        let t1 := tab_emit evs (set_window_manager (set_capture_system b' w) t) in
        match res with
        | Returned minimized_count =>
            set_status_label (StatusMinimized minimized_count)
              (tab_emit [TabLog (TabLogMinimized minimized_count)] t1)
        | Raised e => tab_emit [TabLog (TabLogMinimizeError e)] t1
        end
      else tab_emit [TabLog TabLogFocusUnknown] t
  end.

End Tab.

(** The ids of the [minimize_window] calls in a trace of the tab. *)
Definition as_minimize (e : TabEvent) : option string :=
  match e with CallMinimizeWindow k => Some k | _ => None end.

Definition minimize_calls (tr : list TabEvent) : list string := omap as_minimize tr.

Definition as_unregister (e : Event) : option string :=
  match e with CallUnregisterCallback k => Some k | _ => None end.

(** The ids of the [unregister_callback] calls in a trace of the manager. *)
Definition unregister_calls (tr : list Event) : list string := omap as_unregister tr.

(** The ids of the scanned windows. *)
Definition scanned_ids (eve_windows : list (string * string * string)) : list string :=
  map (fun win => fst (fst win)) eve_windows.

(** The capture system answers every management call with success. *)
#[global] Instance scripted_control : WindowControl ScriptedCapture := {
  minimize_window b wid := (b, Returned true)
}.

(** The count on the status bar is the number of previews. *)
Definition status_bar_current {B D : Type} (t : MainTab B D) : Prop :=
  active_count_label t = get_active_window_count (window_manager t).

(** A tab around a given manager, thumbnails shown. *)
Definition tab_of (w : WindowManager ScriptedCapture ScriptedDetector)
  : MainTab ScriptedCapture ScriptedDetector :=
  mkTab w true StatusReady (get_active_window_count w) [].

(** What a scan found: two clients, one of them listed twice. *)
Definition a_scan : list (string * string * string) :=
  [("0x01", "EVE - Alice", "Alice"); ("0x02", "EVE - Bob", "Bob");
   ("0x01", "EVE - Alice", "Alice")].

(** ** The label of a preview *)

(** The part of [WindowPreviewWidget] that the label methods work on: the
    widget (for its ids), the custom label, and the texts of the info label
    and of the tooltip. *)
Record LabelledPreview : Type := mkLabelled {
  labelled : WindowPreviewWidget;
  custom_label : option string;
  info_label : string;
  toolTip : string
}.

(** Truth value of an [Optional[str]]: [None] and the empty string are
    false. *)
Definition truthy (label : option string) : bool :=
  match label with
  | Some (String _ _) => true
  | _ => false
  end.

(** [label or ""] *)
Definition or_empty (label : option string) : string :=
  match label with
  | Some (String c l) => String c l
  | _ => ""
  end.

(** The line feed, "\n". *)
Definition newline : string := String (Ascii.ascii_of_nat 10) "".

(** [_get_display_name] *)
Definition _get_display_name (p : LabelledPreview) : string :=
  if truthy (custom_label p)
  then or_empty (custom_label p) ++ " (" ++ character_name (labelled p) ++ ")"
  else character_name (labelled p).

(** The text that [_update_tooltip] sets. *)
Definition tooltip_text (p : LabelledPreview) : string :=
  (if truthy (custom_label p)
   then or_empty (custom_label p) ++ newline ++ character_name (labelled p)
   else character_name (labelled p))
  ++ newline ++ "Window ID: " ++ window_id (labelled p)
  ++ newline ++ "Click to activate | Right-click for menu".

(** [set_custom_label].  [settings] is [None] without a settings manager
    and otherwise the dict that [get("character_labels", {})] returns;
    the result carries the arguments of [label_changed.emit] and the dict
    handed to [set("character_labels", ...)]. *)
Definition set_custom_label (label : option string) (settings : option (gmap string string))
    (p : LabelledPreview)
  : LabelledPreview * (string * string) * option (gmap string string) :=
  let p1 := mkLabelled (labelled p) label (info_label p) (toolTip p) in
  let p2 := mkLabelled (labelled p1) (custom_label p1) (_get_display_name p1) (toolTip p1) in
  let p3 := mkLabelled (labelled p2) (custom_label p2) (info_label p2) (tooltip_text p2) in
  (p3, (window_id (labelled p), or_empty label),
   match settings with
   | Some labels =>
       Some (if truthy label then <[character_name (labelled p) := or_empty label]> labels
             else match labels !! character_name (labelled p) with
                  | Some _ => delete (character_name (labelled p)) labels
                  | None => labels
                  end)
   | None => None
   end).

(** The label part of [_load_settings]:
    [self.custom_label = labels.get(self.character_name)]. *)
Definition load_custom_label (labels : gmap string string) (p : LabelledPreview)
  : LabelledPreview :=
  mkLabelled (labelled p) (labels !! character_name (labelled p)) (info_label p) (toolTip p).

(** ** The submissions and the delivery, step by step *)

(** The capture system asked for one capture for each of [items], in
    order: its state afterwards, and each window with the answer it got. *)
Fixpoint submit_all {B : Type} `{CaptureSystem B} (items : list (string * Q)) (b : B)
  : B * list (string * Outcome string) :=
  match items with
  | [] => (b, [])
  | (wid, scale) :: items' =>
      let '(b1, answer) := capture_window_async b wid scale in
      let '(b2, answers) := submit_all items' b1 in
      (b2, (wid, answer) :: answers)
  end.

(** The answers recorded: a request id that came back is bound to the
    window it came back for; a submission that raised leaves the map as it
    is. *)
Fixpoint record_all (answers : list (string * Outcome string)) (p : gmap string string)
  : gmap string string :=
  match answers with
  | [] => p
  | (wid, Returned request_id) :: answers' => record_all answers' (<[request_id := wid]> p)
  | (wid, Raised _) :: answers' => record_all answers' p
  end.

(** What the delivery of a result does to the widget of its window: the
    frame is shown, and when the analysis of the frame returned a level the
    alert is set. *)
Definition delivered (image : option Image) (answer : Outcome (option AlertLevel))
    (f : WindowPreviewWidget) : WindowPreviewWidget :=
  match image, answer with
  | Some _, Returned (Some level) => fst (set_alert level (fst (update_frame image f)))
  | _, _ => fst (update_frame image f)
  end.

(** The analysis that the delivery of a result runs: none for a failed
    capture. *)
Definition analysis_of {D : Type} `{AlertDetector D} (wid : string) (image : option Image)
    (det : D) : D * Outcome (option AlertLevel) :=
  match image with
  | Some img => analyze_frame det wid img
  | None => (det, Returned None)
  end.

(** * The alert state machine of a preview *)

Lemma alert_state_active (f : WindowPreviewWidget) :
  alert_state f = ACTIVE <-> exists level, alert_level f = Some level.
Proof.
  unfold alert_state. destruct (alert_level f) as [l|]; split.
  - intros _. now exists l.
  - reflexivity.
  - discriminate.
  - intros [l Hl]. discriminate.
Qed.

Lemma alert_state_idle (f : WindowPreviewWidget) :
  alert_state f = IDLE <-> alert_level f = None.
Proof.
  unfold alert_state. destruct (alert_level f); split; congruence.
Qed.

(** A trigger leaves the widget flashing, whatever it was doing before,
    provided its timer was idle or already flashing. *)
Lemma set_alert_flashing (level : AlertLevel) (f : WindowPreviewWidget) :
  isActive (flash_timer f) = false \/ flashing f ->
  flashing (fst (set_alert level f)).
Proof.
  intros [Hoff | (_ & Hon & Hint & Hrem & _)]; unfold flashing, alert_state; simpl.
  - rewrite Hoff. simpl. repeat split; lia.
  - rewrite Hon. repeat split; auto; lia.
Qed.

Lemma time_to_idle_pos (f : WindowPreviewWidget) :
  flashing f -> 1 <= time_to_idle f.
Proof.
  intros (_ & _ & Hint & Hrem & Hc). unfold time_to_idle. rewrite Hint. lia.
Qed.

(** One millisecond before the last: the alert stays as it is and the time
    to idle goes down by one. *)
Lemma flash_timer_ms_flashing (f : WindowPreviewWidget) :
  flashing f -> 1 < time_to_idle f ->
  let f' := fst (flash_timer_ms f) in
  flashing f' /\ alert_level f' = alert_level f /\
  alert_flash_counter f' <= alert_flash_counter f /\
  time_to_idle f' = time_to_idle f - 1.
Proof.
  intros (Hact & Hon & Hint & Hrem & Hc) Ht. unfold time_to_idle in Ht.
  rewrite Hint in Ht.
  unfold flash_timer_ms. rewrite Hon.
  destruct (Z.leb_spec (remaining (flash_timer f)) 1) as [Hle | Hgt].
  - assert (Hr : remaining (flash_timer f) = 1) by lia.
    assert (Hc2 : 2 <= alert_flash_counter f) by lia.
    unfold _flash_tick. cbn [fst set_flash_timer alert_flash_counter flash_timer
      alert_level window_id character_name current_pixmap zoom_factor isVisible].
    destruct (Z.leb_spec (alert_flash_counter f - 1) 0) as [H0 | H0]; [lia|].
    unfold flashing, alert_state, time_to_idle in *. cbn.
    rewrite Hint, Hr. repeat split; auto; lia.
  - unfold flashing, alert_state, time_to_idle in *. cbn.
    rewrite Hint. repeat split; auto; lia.
Qed.

(** The last millisecond: the timer fires for the last flash, stops, and
    the level is cleared. *)
Lemma flash_timer_ms_last (f : WindowPreviewWidget) :
  flashing f -> time_to_idle f = 1 ->
  let f' := fst (flash_timer_ms f) in
  alert_level f' = None /\ isActive (flash_timer f') = false /\
  alert_flash_counter f' = 0.
Proof.
  intros (Hact & Hon & Hint & Hrem & Hc) Ht. unfold time_to_idle in Ht.
  rewrite Hint in Ht.
  assert (Hr : remaining (flash_timer f) = 1) by lia.
  assert (Hc1 : alert_flash_counter f = 1) by lia.
  unfold flash_timer_ms. rewrite Hon, Hr. cbn.
  rewrite Hc1. cbn. auto.
Qed.

Lemma elapse_ms_S (n : nat) (f : WindowPreviewWidget) :
  fst (elapse_ms (S n) f) = fst (elapse_ms n (fst (flash_timer_ms f))).
Proof.
  simpl. destruct (flash_timer_ms f) as [f1 e1]. simpl.
  destruct (elapse_ms n f1) as [f2 e2]. reflexivity.
Qed.

(** While the time to idle has not run out, the alert is untouched. *)
Lemma elapse_ms_flashing (n : nat) :
  forall f : WindowPreviewWidget,
  flashing f -> Z.of_nat n < time_to_idle f ->
  let f' := fst (elapse_ms n f) in
  flashing f' /\ alert_level f' = alert_level f /\
  time_to_idle f' = time_to_idle f - Z.of_nat n.
Proof.
  induction n as [|n IH]; intros f Hf Hlt.
  - simpl. repeat split; auto; try apply Hf. lia.
  - cbv zeta. rewrite elapse_ms_S.
    destruct (flash_timer_ms_flashing f Hf) as (Hf1 & Hl1 & _ & Ht1); [lia|].
    destruct (IH _ Hf1) as (Hf2 & Hl2 & Ht2); [lia|].
    split; [exact Hf2|]. split; [congruence | lia].
Qed.

(** When the time to idle has run out exactly, the widget is idle. *)
Lemma elapse_ms_to_idle (n : nat) (f : WindowPreviewWidget) :
  flashing f -> Z.of_nat n = time_to_idle f ->
  let f' := fst (elapse_ms n f) in
  alert_level f' = None /\ isActive (flash_timer f') = false.
Proof.
  intros Hf Hn. pose proof (time_to_idle_pos f Hf) as Hpos.
  destruct n as [|n]; [lia|].
  cbv zeta.
  revert f Hf Hn Hpos. induction n as [|n IH]; intros f Hf Hn Hpos.
  - rewrite elapse_ms_S. simpl.
    destruct (flash_timer_ms_last f Hf) as (H1 & H2 & _); [lia|]. auto.
  - rewrite elapse_ms_S.
    destruct (flash_timer_ms_flashing f Hf) as (Hf1 & _ & _ & Ht1); [lia|].
    apply IH; [exact Hf1 | lia | apply time_to_idle_pos; exact Hf1].
Qed.

(** A trigger on a flashing widget: 30 flashes again, and the alert lasts
    for the rest of the running timer period and 29 periods more. *)
Lemma set_alert_time_to_idle (level : AlertLevel) (f : WindowPreviewWidget) :
  flashing f ->
  time_to_idle (fst (set_alert level f)) = remaining (flash_timer f) + 2900.
Proof.
  intros (_ & Hon & Hint & _ & _). unfold time_to_idle. simpl.
  rewrite Hon, Hint. lia.
Qed.

Lemma after_high_flashing : flashing after_high.
Proof. apply set_alert_flashing. left. reflexivity. Qed.

Lemma after_high_time_to_idle : time_to_idle after_high = 3000.
Proof. reflexivity. Qed.

(** The preview of the scenario, re-triggered while the first alert is on:
    it is flashing, and its alert ends with the 30th tick from then. *)
Lemma retriggered_after_flashing (ms : nat) :
  (ms < 3000)%nat ->
  flashing (retriggered_after ms) /\
  alert_level (retriggered_after ms) = Some MEDIUM /\
  time_to_idle (retriggered_after ms) = (2999 - Z.of_nat ms) mod 100 + 2901.
Proof.
  intros Hms. unfold retriggered_after.
  destruct (elapse_ms_flashing ms after_high after_high_flashing) as (Hf & _ & Ht).
  { rewrite after_high_time_to_idle. lia. }
  rewrite after_high_time_to_idle in Ht.
  split; [apply set_alert_flashing; now right|]. split; [reflexivity|].
  rewrite (set_alert_time_to_idle MEDIUM _ Hf).
  destruct Hf as (_ & _ & Hint & Hrem & Hc). unfold time_to_idle in Ht. rewrite Hint in Ht.
  assert (Hr : remaining (flash_timer (fst (elapse_ms ms after_high))) - 1 =
               (2999 - Z.of_nat ms) mod 100).
  { apply (Z.mod_unique_pos _ 100
             (alert_flash_counter (fst (elapse_ms ms after_high)) - 1)); lia. }
  lia.
Qed.

(** C3 (as the code has it).  A trigger replaces the stored severity by the
    new one, whatever the state and the old severity were, and sets the
    flash counter back to 30.  It does not restart a flash timer that is
    running: on a preview whose alert is ACTIVE the alert ends with the
    30th tick after the trigger, that is after the rest of the running
    100 ms period and 2900 ms more, which is more than 2900 ms and at most
    3000 ms.  In the scenario HIGH at t = 0 and MEDIUM while HIGH is on,
    [ms] milliseconds later, the alert ends [(2999 - ms) mod 100 + 2901]
    milliseconds after the second trigger.  For MEDIUM at t = 1500 ms the
    preview is ACTIVE with severity MEDIUM from the trigger on, also at
    t = 3000 ms, and IDLE with severity NONE at t = 4500 ms when the tick
    due at t = 1500 ms ran before the trigger, at t = 4400 ms when the
    trigger came first. *)
Theorem retrigger_replaces_severity_and_restarts_count :
  (forall (f : WindowPreviewWidget) (level : AlertLevel),
      alert_state (fst (set_alert level f)) = ACTIVE /\
      alert_level (fst (set_alert level f)) = Some level /\
      alert_flash_counter (fst (set_alert level f)) = 30) /\
  (forall (f : WindowPreviewWidget) (level : AlertLevel),
      flashing f ->
      flashing (fst (set_alert level f)) /\
      flash_timer (fst (set_alert level f)) = flash_timer f /\
      time_to_idle (fst (set_alert level f)) = remaining (flash_timer f) + 2900 /\
      2900 < time_to_idle (fst (set_alert level f)) <= 3000 /\
      (forall d : nat,
          Z.of_nat d < time_to_idle (fst (set_alert level f)) ->
          alert_level (fst (elapse_ms d (fst (set_alert level f)))) = Some level) /\
      (forall d : nat,
          Z.of_nat d = time_to_idle (fst (set_alert level f)) ->
          alert_level (fst (elapse_ms d (fst (set_alert level f)))) = None)) /\
  (forall ms : nat,
      (ms < 3000)%nat ->
      alert_state (retriggered_after ms) = ACTIVE /\
      alert_level (retriggered_after ms) = Some MEDIUM /\
      time_to_idle (retriggered_after ms) = (2999 - Z.of_nat ms) mod 100 + 2901) /\
  (forall d : nat, (d < 3000)%nat ->
      alert_level (fst (elapse_ms d (retriggered_after 1500))) = Some MEDIUM) /\
  alert_level (fst (elapse_ms 3000 (retriggered_after 1500))) = None /\
  alert_state (fst (elapse_ms 3000 (retriggered_after 1500))) = IDLE /\
  (forall d : nat, (d < 2901)%nat ->
      alert_level (fst (elapse_ms d (retriggered_after 1499))) = Some MEDIUM) /\
  alert_level (fst (elapse_ms 2901 (retriggered_after 1499))) = None /\
  alert_state (fst (elapse_ms 2901 (retriggered_after 1499))) = IDLE.
Proof.
  split; [intros f level; repeat split|].
  split.
  { intros f level Hf.
    assert (Hf' : flashing (fst (set_alert level f)))
      by (apply set_alert_flashing; now right).
    pose proof (set_alert_time_to_idle level f Hf) as Ht.
    pose proof Hf as (_ & Hon & _ & Hrem & _).
    split; [exact Hf'|]. split; [simpl; now rewrite Hon|]. split; [exact Ht|].
    split; [lia|]. split.
    - intros d Hd. now destruct (elapse_ms_flashing d _ Hf' Hd) as (_ & Hl & _).
    - intros d Hd. now destruct (elapse_ms_to_idle d _ Hf' Hd) as (Hl & _). }
  split.
  { intros ms Hms. destruct (retriggered_after_flashing ms Hms) as (Hf & Hl & Ht).
    split; [apply Hf|]. split; [exact Hl | exact Ht]. }
  assert (Hduring : forall (ms d : nat), (ms < 3000)%nat ->
            Z.of_nat d < (2999 - Z.of_nat ms) mod 100 + 2901 ->
            alert_level (fst (elapse_ms d (retriggered_after ms))) = Some MEDIUM).
  { intros ms d Hms Hd. destruct (retriggered_after_flashing ms Hms) as (Hf & Hl & Ht).
    destruct (elapse_ms_flashing d _ Hf) as (_ & Hl' & _); [lia|]. congruence. }
  assert (Hover : forall (ms d : nat), (ms < 3000)%nat ->
            Z.of_nat d = (2999 - Z.of_nat ms) mod 100 + 2901 ->
            alert_level (fst (elapse_ms d (retriggered_after ms))) = None).
  { intros ms d Hms Hd. destruct (retriggered_after_flashing ms Hms) as (Hf & Hl & Ht).
    destruct (elapse_ms_to_idle d _ Hf) as (Hl' & _); [lia | exact Hl']. }
  assert (H1500 : alert_level (fst (elapse_ms 3000 (retriggered_after 1500))) = None)
    by (apply Hover; [lia | reflexivity]).
  assert (H1499 : alert_level (fst (elapse_ms 2901 (retriggered_after 1499))) = None)
    by (apply Hover; [lia | reflexivity]).
  split; [intros d Hd; apply Hduring; [lia|]; change ((2999 - Z.of_nat 1500) mod 100) with 99; lia|].
  split; [exact H1500|]. split; [now apply alert_state_idle|].
  split; [intros d Hd; apply Hduring; [lia|]; change ((2999 - Z.of_nat 1499) mod 100) with 0; lia|].
  split; [exact H1499 | now apply alert_state_idle].
Qed.

Lemma retrigger_replaces_severity_and_restarts_count_witness :
  flashing after_high /\
  flashing (fst (set_alert MEDIUM after_high)) /\
  time_to_idle (fst (set_alert MEDIUM after_high)) = 3000 /\
  alert_level (retriggered_after 1550) = Some MEDIUM /\
  time_to_idle (retriggered_after 1550) = 2950 /\
  alert_level (fst (elapse_ms 2999 (retriggered_after 1500))) = Some MEDIUM /\
  alert_level (fst (elapse_ms 2900 (retriggered_after 1499))) = Some MEDIUM.
Proof.
  assert (Hf : flashing after_high).
  { unfold flashing. cbn. repeat split; try reflexivity; lia. }
  destruct retrigger_replaces_severity_and_restarts_count
    as (_ & H2 & H3 & H4 & _ & _ & H7 & _).
  destruct (H2 after_high MEDIUM Hf) as (Hf' & _ & Ht & _).
  destruct (H3 1550%nat ltac:(lia)) as (_ & Hl & Ht').
  split; [exact Hf|]. split; [exact Hf'|]. split; [exact Ht|].
  split; [exact Hl|]. split; [exact Ht'|].
  split; [apply (H4 2999%nat); lia | apply (H7 2900%nat); lia].
Defined.

(** C3, counterexample: MEDIUM 1550 ms after HIGH.  The flash timer goes on
    as it was, and the alert is over 2950 ms after the second trigger, at
    t = 4500 ms: the remaining duration was not set back to the full
    3000 ms.  And MEDIUM at t = 1500 ms ahead of the tick due then is over
    at t = 4400 ms, not at t = 4500 ms. *)
Lemma retrigger_does_not_restore_full_window :
  alert_level (retriggered_after 1550) = Some MEDIUM /\
  alert_level (fst (elapse_ms 2950 (retriggered_after 1550))) = None /\
  ~ (forall d : nat, (d < 3000)%nat ->
       alert_level (fst (elapse_ms d (retriggered_after 1550))) = Some MEDIUM) /\
  alert_level (fst (elapse_ms 2901 (retriggered_after 1499))) = None.
Proof.
  assert (H : alert_level (fst (elapse_ms 2950 (retriggered_after 1550))) = None)
    by (vm_compute; reflexivity).
  split; [reflexivity|]. split; [exact H|]. split; [|vm_compute; reflexivity].
  intros Hall. specialize (Hall 2950%nat ltac:(lia)). rewrite H in Hall. discriminate.
Qed.

(** * Dictionaries *)

Section DictFacts.
Context {V : Type}.
Implicit Types (d : list (string * V)) (k : string) (v : V).

Lemma dict_mem_keys k d : dict_mem k d = true <-> k ∈ dict_keys d.
Proof.
  unfold dict_mem, dict_keys. induction d as [|[k' v'] d IH]; simpl.
  - split; [discriminate | intros Hin; inversion Hin].
  - destruct (decide (k' = k)) as [->|Hne].
    + split; [intros _; left | reflexivity].
    + rewrite IH. split.
      * intros Hin. now right.
      * intros Hin. inversion Hin; subst; [congruence | assumption].
Qed.

Lemma dict_mem_false_get k d : dict_mem k d = false <-> dict_get k d = None.
Proof. unfold dict_mem. destruct (dict_get k d); split; congruence. Qed.

Lemma dict_mem_true_get k d : dict_mem k d = true <-> exists v, dict_get k d = Some v.
Proof.
  unfold dict_mem. destruct (dict_get k d) as [v|]; split.
  - intros _. now exists v.
  - reflexivity.
  - discriminate.
  - intros [v Hv]. discriminate.
Qed.

Lemma dict_keys_replace k v d : dict_keys (dict_replace k v d) = dict_keys d.
Proof.
  unfold dict_keys. induction d as [|[k' v'] d IH]; simpl; [reflexivity|].
  destruct (decide (k' = k)); simpl; [reflexivity | now rewrite IH].
Qed.

Lemma dict_get_replace_ne k k' v d :
  k' <> k -> dict_get k (dict_replace k' v d) = dict_get k d.
Proof.
  intros Hne. induction d as [|[k0 v0] d IH]; simpl; [reflexivity|].
  destruct (decide (k0 = k')) as [->|Hne0]; simpl.
  - destruct (decide (k' = k)); [congruence | reflexivity].
  - destruct (decide (k0 = k)); [reflexivity | exact IH].
Qed.

Lemma dict_get_replace_eq k v d :
  dict_get k (dict_replace k v d) = match dict_get k d with Some _ => Some v | None => None end.
Proof.
  induction d as [|[k0 v0] d IH]; simpl; [reflexivity|].
  destruct (decide (k0 = k)) as [->|Hne]; simpl.
  - destruct (decide (k = k)); [reflexivity | congruence].
  - destruct (decide (k0 = k)); [congruence | exact IH].
Qed.

Lemma dict_mem_replace k k' v d : dict_mem k (dict_replace k' v d) = dict_mem k d.
Proof.
  unfold dict_mem. destruct (decide (k' = k)) as [->|Hne].
  - rewrite dict_get_replace_eq. now destruct (dict_get k d).
  - now rewrite dict_get_replace_ne.
Qed.

Lemma dict_get_pop_eq k d : dict_get k (dict_pop k d) = None.
Proof.
  induction d as [|[k0 v0] d IH]; simpl; [reflexivity|].
  destruct (decide (k0 = k)) as [->|Hne]; simpl; [exact IH|].
  destruct (decide (k0 = k)); [congruence | exact IH].
Qed.

Lemma dict_get_pop_ne k k' d : k' <> k -> dict_get k (dict_pop k' d) = dict_get k d.
Proof.
  intros Hne. induction d as [|[k0 v0] d IH]; simpl; [reflexivity|].
  destruct (decide (k0 = k')) as [->|Hne0]; simpl.
  - destruct (decide (k' = k)); [congruence | exact IH].
  - destruct (decide (k0 = k)); [reflexivity | exact IH].
Qed.

Lemma dict_mem_pop k d : dict_mem k (dict_pop k d) = false.
Proof. apply dict_mem_false_get, dict_get_pop_eq. Qed.

Lemma dict_get_app k d1 d2 :
  dict_get k (d1 ++ d2) = match dict_get k d1 with Some v => Some v | None => dict_get k d2 end.
Proof.
  induction d1 as [|[k0 v0] d1 IH]; simpl; [reflexivity|].
  destruct (decide (k0 = k)); [reflexivity | exact IH].
Qed.

Lemma dict_mem_added k v d : dict_mem k (d ++ [(k, v)]) = true.
Proof.
  unfold dict_mem. rewrite dict_get_app. destruct (dict_get k d); [reflexivity|].
  simpl. destruct (decide (k = k)); [reflexivity | congruence].
Qed.

(** One binding per key is kept by the three ways the manager changes
    [preview_frames]. *)
Lemma NoDup_keys_added k v d :
  dict_mem k d = false -> NoDup (dict_keys d) -> NoDup (dict_keys (d ++ [(k, v)])).
Proof.
  intros Hk Hnd. unfold dict_keys. rewrite map_app. simpl.
  apply NoDup_app. split; [exact Hnd|]. split.
  - intros x Hx Hx'. apply list_elem_of_singleton in Hx'. subst x.
    apply dict_mem_keys in Hx. congruence.
  - apply NoDup_singleton.
Qed.

Lemma dict_keys_pop_subset k k' d : k ∈ dict_keys (dict_pop k' d) -> k ∈ dict_keys d.
Proof.
  intros Hin. apply dict_mem_keys in Hin. apply dict_mem_keys.
  destruct (decide (k' = k)) as [->|Hne].
  - rewrite dict_mem_pop in Hin. discriminate.
  - unfold dict_mem in *. now rewrite dict_get_pop_ne in Hin.
Qed.

Lemma NoDup_keys_pop k d : NoDup (dict_keys d) -> NoDup (dict_keys (dict_pop k d)).
Proof.
  unfold dict_keys. induction d as [|[k0 v0] d IH]; simpl; intros Hnd; [constructor|].
  apply NoDup_cons in Hnd as [Hnot Hnd].
  destruct (decide (k0 = k)); simpl; [now apply IH|].
  apply NoDup_cons. split; [|now apply IH].
  intros Hin. apply Hnot. now apply (dict_keys_pop_subset k0 k d).
Qed.

Lemma NoDup_keys_replace k v d : NoDup (dict_keys d) -> NoDup (dict_keys (dict_replace k v d)).
Proof. now rewrite dict_keys_replace. Qed.

Lemma dict_replace_replace k v1 v2 d :
  dict_replace k v2 (dict_replace k v1 d) = dict_replace k v2 d.
Proof.
  induction d as [|[k0 v0] d IH]; simpl; [reflexivity|].
  destruct (decide (k0 = k)) as [->|Hne]; simpl.
  - destruct (decide (k = k)); [reflexivity | congruence].
  - destruct (decide (k0 = k)); [congruence | now rewrite IH].
Qed.

End DictFacts.

(** * Traces *)

Lemma omap_cons {A E : Type} (f : E -> option A) (e : E) (l : list E) :
  omap f (e :: l) = match f e with Some y => y :: omap f l | None => omap f l end.
Proof. reflexivity. Qed.

(** * The manager *)

Section ManagerFacts.
Context {B D : Type} `{CaptureSystem B} `{AlertDetector D}.
Implicit Types (w : WindowManager B D) (r : CaptureResult) (k wid : string).

Ltac callbacks_of_target :=
  repeat first
    [ apply Forall_nil_2
    | apply Forall_cons_2; [first [now left | now right] |] ].

(** What processing one result appends to the trace: no poll, no
    submission, the frame delivery for a previewed window, and callbacks for
    that window only. *)
Lemma process_result_trace r w :
  exists evs,
    trace (process_result r w) = trace w ++ evs /\
    omap as_poll evs = [] /\
    omap as_any_submit evs = [] /\
    (forall k, omap (as_update_frame k) evs =
               if dict_mem (snd (fst r)) (preview_frames w)
               then (if decide (snd (fst r) = k) then [snd r] else [])
               else []) /\
    Forall (fun e => callback_target e = None \/
                     (callback_target e = Some (snd (fst r)) /\
                      dict_mem (snd (fst r)) (preview_frames w) = true)) evs.
Proof.
  destruct r as [[rid wid] image]. unfold process_result, dict_mem. simpl.
  destruct (dict_get wid (preview_frames w)) as [f|] eqn:Hget.
  2:{ exists []. simpl. rewrite app_nil_r. repeat split; auto. }
  destruct image as [img|].
  - destruct (analyze_frame _ wid img) as [d' [[level|]|e]] eqn:Han; simpl;
      rewrite ?dict_get_replace_eq, ?Hget; simpl; rewrite <- ?app_assoc;
      (eexists; split; [reflexivity|]); simpl;
      (split; [reflexivity|]); (split; [reflexivity|]);
      (split; [intros k; destruct (decide (wid = k)); reflexivity|]);
      callbacks_of_target.
  - simpl. rewrite <- ?app_assoc. eexists. split; [reflexivity|]. simpl.
    split; [reflexivity|]. split; [reflexivity|].
    split; [intros k; destruct (decide (wid = k)); reflexivity|].
    callbacks_of_target.
Qed.

Lemma process_result_capture_system r w :
  capture_system (process_result r w) = capture_system w.
Proof.
  destruct r as [[rid wid] image]. unfold process_result.
  destruct (dict_get wid (preview_frames w)) as [f|] eqn:Hget; [|reflexivity].
  destruct image as [img|]; [|reflexivity].
  destruct (analyze_frame _ wid img) as [d' [[level|]|e]]; simpl;
    rewrite ?dict_get_replace_eq, ?Hget; reflexivity.
Qed.

Lemma process_result_keys r w :
  dict_keys (preview_frames (process_result r w)) = dict_keys (preview_frames w).
Proof.
  destruct r as [[rid wid] image]. unfold process_result.
  destruct (dict_get wid (preview_frames w)) as [f|] eqn:Hget; [|reflexivity].
  destruct image as [img|]; [|simpl; apply dict_keys_replace].
  destruct (analyze_frame _ wid img) as [d' [[level|]|e]]; simpl;
    rewrite ?dict_get_replace_eq, ?Hget; simpl; rewrite ?dict_keys_replace; reflexivity.
Qed.

Lemma dict_mem_same_keys {V : Type} k (d1 d2 : list (string * V)) :
  dict_keys d1 = dict_keys d2 -> dict_mem k d1 = dict_mem k d2.
Proof.
  intros Hk. destruct (dict_mem k d2) eqn:H2.
  - apply dict_mem_keys. rewrite Hk. now apply dict_mem_keys.
  - destruct (dict_mem k d1) eqn:H1; [|reflexivity].
    apply dict_mem_keys in H1. rewrite Hk in H1. apply dict_mem_keys in H1. congruence.
Qed.

Lemma process_result_mem k r w :
  dict_mem k (preview_frames (process_result r w)) = dict_mem k (preview_frames w).
Proof. apply dict_mem_same_keys, process_result_keys. Qed.

Lemma process_result_pending r w :
  pending_requests (process_result r w) = delete (fst (fst r)) (pending_requests w).
Proof.
  destruct r as [[rid wid] image]. unfold process_result.
  destruct (dict_get wid (preview_frames w)) as [f|] eqn:Hget; [|reflexivity].
  destruct image as [img|]; [|reflexivity].
  destruct (analyze_frame _ wid img) as [d' [[level|]|e]]; simpl;
    rewrite ?dict_get_replace_eq, ?Hget; reflexivity.
Qed.

(** A poll is one [get_result] call and touches nothing but the capture
    system. *)
Lemma poll_spec w :
  trace (fst (poll w)) = trace w ++ [CallGetResult] /\
  preview_frames (fst (poll w)) = preview_frames w /\
  pending_requests (fst (poll w)) = pending_requests w /\
  capture_system (fst (poll w)) = fst (get_result (capture_system w)) /\
  snd (poll w) = snd (get_result (capture_system w)).
Proof.
  unfold poll. destruct (get_result (capture_system w)) as [b' res]. simpl. auto.
Qed.

(** With enough fuel the loop does what its unrolling along the results
    does. *)
Lemma drain_loop_yields (b b' : B) (rs : list CaptureResult) :
  yields b rs b' ->
  forall (fuel processed : nat) w,
    capture_system w = b -> (length rs < fuel)%nat ->
    drain_loop fuel processed w = Some (drain_over rs processed w) /\
    capture_system (drain_over rs processed w) = b'.
Proof.
  induction 1 as [b b' Hget | b b1 r rs b' Hget Hy IH]; intros fuel n w Hb Hfuel.
  - destruct fuel as [|fuel]; [simpl in Hfuel; lia|].
    simpl. unfold poll. rewrite Hb, Hget. simpl.
    split; [reflexivity|]. now destruct (0 <? n)%nat.
  - destruct fuel as [|fuel]; [simpl in Hfuel; lia|].
    simpl. unfold poll. rewrite Hb, Hget. simpl.
    apply IH; [|simpl in Hfuel; lia].
    now rewrite process_result_capture_system.
Qed.

(** With too little fuel the loop is cut off. *)
Lemma drain_loop_short (b b' : B) (rs : list CaptureResult) :
  yields b rs b' ->
  forall (fuel processed : nat) w,
    capture_system w = b -> (fuel <= length rs)%nat ->
    drain_loop fuel processed w = None.
Proof.
  induction 1 as [b b' Hget | b b1 r rs b' Hget Hy IH]; intros fuel n w Hb Hfuel.
  - destruct fuel as [|fuel]; [reflexivity | simpl in Hfuel; lia].
  - destruct fuel as [|fuel]; [reflexivity|].
    simpl. unfold poll. rewrite Hb, Hget. simpl.
    apply IH; [|simpl in Hfuel; lia].
    now rewrite process_result_capture_system.
Qed.

Lemma drain_over_keys (rs : list CaptureResult) :
  forall (processed : nat) w,
    dict_keys (preview_frames (drain_over rs processed w)) = dict_keys (preview_frames w).
Proof.
  induction rs as [|r rs IH]; intros n w; simpl.
  - destruct (poll_spec w) as (_ & Hf & _). now destruct (0 <? n)%nat; simpl; rewrite Hf.
  - rewrite IH, process_result_keys. destruct (poll_spec w) as (_ & Hf & _). now rewrite Hf.
Qed.

(** What a drain appends to the trace: one poll for each result and one
    more, no submission, the frames of the results for each previewed
    window in order, and callbacks for previewed windows only. *)
Lemma drain_over_trace (rs : list CaptureResult) :
  forall (processed : nat) w,
  exists evs,
    trace (drain_over rs processed w) = trace w ++ evs /\
    length (omap as_poll evs) = S (length rs) /\
    omap as_any_submit evs = [] /\
    (forall k, omap (as_update_frame k) evs =
               if dict_mem k (preview_frames w) then frames_for k rs else []) /\
    Forall (fun e => callback_target e = None \/
                     exists k, callback_target e = Some k /\
                               dict_mem k (preview_frames w) = true) evs.
Proof.
  induction rs as [|r rs IH]; intros n w.
  - destruct (poll_spec w) as (Ht & _). simpl.
    exists (CallGetResult :: if (0 <? n)%nat then [Log (LogProcessed n)] else []).
    split; [destruct (0 <? n)%nat; simpl; rewrite Ht, <- ?app_assoc; reflexivity|].
    split; [now destruct (0 <? n)%nat|]. split; [now destruct (0 <? n)%nat|].
    split; [intros k; now destruct (0 <? n)%nat, (dict_mem k (preview_frames w))|].
    destruct (0 <? n)%nat; repeat (apply Forall_cons_2; [now left|]); apply Forall_nil_2.
  - destruct (poll_spec w) as (Ht & Hf & _). simpl.
    destruct (process_result_trace r (fst (poll w))) as (e1 & Ht1 & Hp1 & Hs1 & Hu1 & Hc1).
    destruct (IH (S n) (process_result r (fst (poll w)))) as (e2 & Ht2 & Hp2 & Hs2 & Hu2 & Hc2).
    exists (CallGetResult :: e1 ++ e2).
    split; [rewrite Ht2, Ht1, Ht, <- ?app_assoc; reflexivity|].
    split; [simpl; rewrite omap_app, Hp1; simpl; now rewrite Hp2|].
    split; [simpl; rewrite omap_app, Hs1, Hs2; reflexivity|].
    split.
    + intros k. simpl. rewrite omap_app, Hu1, Hu2, process_result_mem, Hf.
      destruct r as [[rid wid] image]. simpl.
      destruct (decide (wid = k)) as [->|Hne].
      * now destruct (dict_mem k (preview_frames w)).
      * now destruct (dict_mem wid (preview_frames w)).
    + apply Forall_cons_2; [now left|]. apply Forall_app. split.
      * eapply Forall_impl; [exact Hc1|]. intros e [He | [He Hm]]; [now left|].
        right. exists (snd (fst r)). rewrite <- Hf. auto.
      * eapply Forall_impl; [exact Hc2|]. intros e [He | [k [He Hm]]]; [now left|].
        right. exists k. rewrite process_result_mem, Hf in Hm. auto.
Qed.

Lemma remove_window_mem wid w :
  dict_mem wid (preview_frames (remove_window wid w)) = false.
Proof.
  unfold remove_window. destruct (dict_mem wid (preview_frames w)) eqn:Hm; simpl.
  - apply dict_mem_pop.
  - exact Hm.
Qed.

Lemma no_callback_for_alert wid (evs : list Event) :
  no_callback_for wid evs -> omap (as_alert wid) evs = [].
Proof.
  induction 1 as [|e evs He _ IH]; [reflexivity|].
  rewrite omap_cons, IH. destruct e as [| |k level| | | | | | |]; simpl in *; try reflexivity.
  destruct (decide (k = wid)); [congruence | reflexivity].
Qed.

(** C6.  When the capture system answers the polls of a tick with K results
    and then with nothing, the drain loop makes exactly K + 1 [get_result]
    calls and ends: K + 1 polls of fuel (or more) are enough, K are not. *)
Theorem drain_polls_once_more_than_results w (rs : list CaptureResult) (b' : B) :
  yields (capture_system w) rs b' ->
  (forall fuel : nat, (length rs < fuel)%nat ->
     exists w', _process_capture_results fuel w = Some w' /\
                poll_calls (trace w') = (poll_calls (trace w) + length rs + 1)%nat /\
                capture_system w' = b') /\
  _process_capture_results (length rs) w = None.
Proof.
  intros Hy. split.
  - intros fuel Hfuel.
    destruct (drain_loop_yields _ _ _ Hy fuel 0%nat w eq_refl Hfuel) as [Hrun Hb].
    exists (drain_over rs 0 w). split; [exact Hrun|]. split; [|exact Hb].
    destruct (drain_over_trace rs 0%nat w) as (evs & Ht & Hp & _).
    unfold poll_calls. rewrite Ht, omap_app, length_app, Hp. lia.
  - apply (drain_loop_short _ _ _ Hy); [reflexivity | lia].
Qed.

(** C2.  After [remove_window wid], the results that arrive later are
    drained to the end without a raise; nothing is called for [wid] (no
    [update_frame], no [analyze_frame], no [set_alert]), whatever results
    for [wid] are among them, and the frames of the windows still
    previewed are delivered as usual. *)
Theorem removed_target_result_is_dropped wid w (rs : list CaptureResult) (b' : B) :
  yields (capture_system (remove_window wid w)) rs b' ->
  exists w',
    _process_capture_results (S (length rs)) (remove_window wid w) = Some w' /\
    (exists evs, trace w' = trace (remove_window wid w) ++ evs /\
                 no_callback_for wid evs) /\
    update_frame_calls wid (trace w') = update_frame_calls wid (trace (remove_window wid w)) /\
    alert_calls wid (trace w') = alert_calls wid (trace (remove_window wid w)) /\
    (forall k, dict_mem k (preview_frames (remove_window wid w)) = true ->
       update_frame_calls k (trace w') =
       update_frame_calls k (trace (remove_window wid w)) ++ frames_for k rs) /\
    poll_calls (trace w') = (poll_calls (trace (remove_window wid w)) + length rs + 1)%nat.
Proof.
  intros Hy. set (w1 := remove_window wid w) in *.
  assert (Hfuel : (length rs < S (length rs))%nat) by lia.
  destruct (drain_loop_yields _ _ _ Hy _ 0%nat w1 eq_refl Hfuel) as [Hrun _].
  destruct (drain_over_trace rs 0%nat w1) as (evs & Ht & Hp & _ & Hu & Hc).
  assert (Hgone : dict_mem wid (preview_frames w1) = false) by apply remove_window_mem.
  assert (Hquiet : no_callback_for wid evs).
  { eapply Forall_impl; [exact Hc|]. intros e [He | [k [He Hm]]]; [congruence|].
    intros Heq. rewrite He in Heq. injection Heq as ->. congruence. }
  exists (drain_over rs 0 w1). split; [exact Hrun|].
  split; [exists evs; auto|].
  split; [unfold update_frame_calls; rewrite Ht, omap_app, Hu, Hgone; apply app_nil_r|].
  split; [unfold alert_calls;
          rewrite Ht, omap_app, (no_callback_for_alert _ _ Hquiet); apply app_nil_r|].
  split; [intros k Hk; unfold update_frame_calls; now rewrite Ht, omap_app, Hu, Hk|].
  unfold poll_calls. rewrite Ht, omap_app, length_app, Hp. lia.
Qed.

(** C9.  Whether a result is delivered is decided by the window id in the
    result and the registry alone.  Processing a result under any other
    pending-request map does the same to the previews, the detector and
    the trace (only the map differs, by the pop of the request id).  When
    the window id is previewed the result is delivered, recorded request
    or not: [update_frame] is called once on the preview, which from then
    on shows the frame; the frame is analysed by the detector, and the
    alert it returns is set on the preview; no other preview changes.
    When the window id is not previewed, nothing but the pending map
    changes. *)
Theorem delivery_ignores_pending_requests (rid wid : string) (image : option Image)
    w (p : gmap string string) :
  process_result (rid, wid, image) (set_pending_requests p w) =
    set_pending_requests (delete rid p) (process_result (rid, wid, image) w) /\
  trace (process_result (rid, wid, image) (set_pending_requests p w)) =
    trace (process_result (rid, wid, image) w) /\
  preview_frames (process_result (rid, wid, image) (set_pending_requests p w)) =
    preview_frames (process_result (rid, wid, image) w) /\
  update_frame_calls wid (trace (process_result (rid, wid, image) w)) =
    update_frame_calls wid (trace w) ++
    (if dict_mem wid (preview_frames w) then [image] else []) /\
  (forall f,
     dict_get wid (preview_frames w) = Some f ->
     dict_get wid (preview_frames (process_result (rid, wid, image) (set_pending_requests p w))) =
       Some (delivered image (snd (analysis_of wid image (alert_detector w))) f) /\
     alert_detector (process_result (rid, wid, image) (set_pending_requests p w)) =
       fst (analysis_of wid image (alert_detector w)) /\
     (forall img, image = Some img ->
        preview_pixmap wid (process_result (rid, wid, image) (set_pending_requests p w)) =
          Some (Some img)) /\
     (forall img level,
        image = Some img ->
        snd (analyze_frame (alert_detector w) wid img) = Returned (Some level) ->
        preview_alert_level wid (process_result (rid, wid, image) (set_pending_requests p w)) =
          Some (Some level))) /\
  (forall k, k <> wid ->
     dict_get k (preview_frames (process_result (rid, wid, image) (set_pending_requests p w))) =
     dict_get k (preview_frames w)) /\
  (dict_get wid (preview_frames w) = None ->
   preview_frames (process_result (rid, wid, image) (set_pending_requests p w)) =
     preview_frames w /\
   alert_detector (process_result (rid, wid, image) (set_pending_requests p w)) =
     alert_detector w /\
   trace (process_result (rid, wid, image) (set_pending_requests p w)) = trace w).
Proof.
  assert (Heq : process_result (rid, wid, image) (set_pending_requests p w) =
                set_pending_requests (delete rid p) (process_result (rid, wid, image) w)).
  { unfold process_result. simpl.
    destruct (dict_get wid (preview_frames w)) as [f|] eqn:Hget; [|reflexivity].
    destruct image as [img|]; [|reflexivity].
    destruct (analyze_frame _ wid img) as [d' [[level|]|e]]; simpl;
      rewrite ?dict_get_replace_eq, ?Hget; reflexivity. }
  split; [exact Heq|]. rewrite Heq. split; [reflexivity|]. split; [reflexivity|].
  split.
  { destruct (process_result_trace (rid, wid, image) w) as (evs & Ht & _ & _ & Hu & _).
    unfold update_frame_calls. rewrite Ht, omap_app, Hu. simpl.
    destruct (decide (wid = wid)); [reflexivity | congruence]. }
  assert (Hstate : forall f, dict_get wid (preview_frames w) = Some f ->
            preview_frames (process_result (rid, wid, image) w) =
              dict_replace wid (delivered image (snd (analysis_of wid image (alert_detector w))) f)
                           (preview_frames w) /\
            alert_detector (process_result (rid, wid, image) w) =
              fst (analysis_of wid image (alert_detector w))).
  { intros f Hget. unfold process_result, delivered, analysis_of. rewrite Hget.
    destruct image as [img|]; [|split; reflexivity].
    destruct (analyze_frame (alert_detector w) wid img) as [d' [[level|]|e]] eqn:Han; simpl;
      rewrite ?Han; simpl; rewrite ?dict_get_replace_eq, ?Hget; simpl;
      rewrite ?dict_replace_replace; split; reflexivity. }
  assert (Hframes : forall (q : gmap string string) (x : WindowManager B D),
            preview_frames (set_pending_requests q x) = preview_frames x) by reflexivity.
  assert (Hdet : forall (q : gmap string string) (x : WindowManager B D),
            alert_detector (set_pending_requests q x) = alert_detector x) by reflexivity.
  unfold preview_pixmap, preview_alert_level. rewrite !Hframes, !Hdet.
  split.
  { intros f Hget. destruct (Hstate f Hget) as (Hf & Hd).
    assert (Hlook : dict_get wid (preview_frames (process_result (rid, wid, image) w)) =
              Some (delivered image (snd (analysis_of wid image (alert_detector w))) f))
      by (now rewrite Hf, dict_get_replace_eq, Hget).
    split; [exact Hlook|]. split; [exact Hd|]. split.
    - intros img Himg. rewrite Hlook. subst image. unfold delivered. simpl.
      now destruct (snd (analyze_frame (alert_detector w) wid img)) as [[l|]|e].
    - intros img level Himg Han. rewrite Hlook. subst image.
      unfold delivered, analysis_of. now rewrite Han. }
  split.
  { intros k Hk. destruct (dict_get wid (preview_frames w)) as [f|] eqn:Hget.
    - destruct (Hstate f eq_refl) as (Hf & _). rewrite Hf. apply dict_get_replace_ne. congruence.
    - unfold process_result. now rewrite Hget. }
  intros Hget. unfold process_result. rewrite Hget. simpl. auto.
Qed.

(** What the loop body of [_capture_cycle] does for one item: a
    submission when the preview is visible, nothing otherwise. *)
Lemma request_capture_spec w (item : string * WindowPreviewWidget) :
  preview_frames (request_capture w item) = preview_frames w /\
  exists evs,
    trace (request_capture w item) = trace w ++ evs /\
    omap as_any_submit evs = visible_items [item] /\
    omap as_poll evs = [].
Proof.
  destruct item as [wid f]. unfold request_capture. simpl.
  destruct (isVisible f).
  - destruct (capture_window_async _ wid (zoom_factor f)) as [b1 [rid|e]]; simpl.
    + split; [reflexivity|]. eexists. split; [reflexivity|]. auto.
    + split; [reflexivity|]. rewrite <- ?app_assoc. eexists. split; [reflexivity|]. auto.
  - split; [reflexivity|]. exists []. rewrite app_nil_r. auto.
Qed.

Lemma visible_items_cons (item : string * WindowPreviewWidget) d :
  visible_items (item :: d) = visible_items [item] ++ visible_items d.
Proof. destruct item as [k f]. simpl. now destruct (isVisible f). Qed.

Lemma request_captures_fold (d : list (string * WindowPreviewWidget)) :
  forall w,
    preview_frames (fold_left request_capture d w) = preview_frames w /\
    exists evs,
      trace (fold_left request_capture d w) = trace w ++ evs /\
      omap as_any_submit evs = visible_items d /\
      omap as_poll evs = [].
Proof.
  induction d as [|item d IH]; intros w.
  - simpl. split; [reflexivity|]. exists []. rewrite app_nil_r. auto.
  - cbn [fold_left].
    destruct (request_capture_spec w item) as (Hf1 & e1 & Ht1 & Hs1 & Hp1).
    destruct (IH (request_capture w item)) as (Hf2 & e2 & Ht2 & Hs2 & Hp2).
    split; [congruence|]. exists (e1 ++ e2).
    split; [rewrite Ht2, Ht1, <- app_assoc; reflexivity|].
    rewrite !omap_app, Hs1, Hs2, Hp1, Hp2, (visible_items_cons item d).
    split; reflexivity.
Qed.

Lemma submit_calls_scales_for k (tr : list Event) :
  submit_calls k tr = scales_for k (all_submit_calls tr).
Proof.
  unfold submit_calls, all_submit_calls.
  induction tr as [|e tr IH]; [reflexivity|].
  rewrite !omap_cons.
  destruct e as [| | | | |k0 scale| | | |]; simpl; try exact IH.
  destruct (decide (k0 = k)); simpl; now rewrite IH.
Qed.

Lemma scales_for_app k (l1 l2 : list (string * Q)) :
  scales_for k (l1 ++ l2) = scales_for k l1 ++ scales_for k l2.
Proof.
  induction l1 as [|[k0 s0] l1 IH]; simpl; [reflexivity|].
  destruct (decide (k0 = k)); simpl; now rewrite IH.
Qed.

Lemma scales_for_absent k (d : list (string * WindowPreviewWidget)) :
  k ∉ dict_keys d -> scales_for k (visible_items d) = [].
Proof.
  induction d as [|[k0 f0] d IH]; simpl; intros Hk; [reflexivity|].
  apply not_elem_of_cons in Hk as [Hne Hk].
  destruct (isVisible f0); simpl; [|now apply IH].
  destruct (decide (k0 = k)); [congruence | now apply IH].
Qed.

(** With one binding per key, the submissions for [k] are one for a visible
    preview and none otherwise. *)
Lemma scales_for_visible_items k (d : list (string * WindowPreviewWidget)) :
  NoDup (dict_keys d) ->
  scales_for k (visible_items d) =
  match dict_get k d with
  | Some f => if isVisible f then [zoom_factor f] else []
  | None => []
  end.
Proof.
  induction d as [|[k0 f0] d IH]; simpl; intros Hnd; [reflexivity|].
  apply NoDup_cons in Hnd as [Hnot Hnd].
  destruct (decide (k0 = k)) as [->|Hne].
  - destruct (isVisible f0); simpl.
    + destruct (decide (k = k)); [|congruence]. now rewrite scales_for_absent.
    + now apply scales_for_absent.
  - destruct (isVisible f0); simpl; [|now apply IH].
    destruct (decide (k0 = k)); [congruence | now apply IH].
Qed.

(** C5 (as the code has it).  Recording a request is a plain assignment
    [pending_requests[request_id] = window_id]: after a submission that
    returned [rid], the map binds [rid] to the window just submitted,
    whether [rid] was bound before or not, and nothing is logged. *)
Theorem duplicate_request_id_overwrites w wid (f : WindowPreviewWidget) (b' : B) (rid : string) :
  isVisible f = true ->
  capture_window_async (capture_system w) wid (zoom_factor f) = (b', Returned rid) ->
  pending_requests (request_capture w (wid, f)) = <[rid := wid]> (pending_requests w) /\
  pending_requests (request_capture w (wid, f)) !! rid = Some wid /\
  log_records (trace (request_capture w (wid, f))) = log_records (trace w).
Proof.
  intros Hv Hsub. unfold request_capture. rewrite Hv. simpl. rewrite Hsub. simpl.
  split; [reflexivity|]. split; [apply lookup_insert_eq|].
  unfold log_records. rewrite omap_app. simpl. apply app_nil_r.
Qed.

(** The registry keeps one binding per window id. *)
Lemma add_window_NoDup wid name w :
  NoDup (dict_keys (preview_frames w)) ->
  NoDup (dict_keys (preview_frames (snd (add_window wid name w)))).
Proof.
  intros Hnd. unfold add_window.
  destruct (dict_mem wid (preview_frames w)) eqn:Hm; simpl; [exact Hnd|].
  now apply NoDup_keys_added.
Qed.

Lemma remove_window_NoDup wid w :
  NoDup (dict_keys (preview_frames w)) ->
  NoDup (dict_keys (preview_frames (remove_window wid w))).
Proof.
  intros Hnd. unfold remove_window.
  destruct (dict_mem wid (preview_frames w)); simpl; [|exact Hnd].
  now apply NoDup_keys_pop.
Qed.

Lemma add_window_mem wid name w :
  dict_mem wid (preview_frames (snd (add_window wid name w))) = true.
Proof.
  unfold add_window. destruct (dict_mem wid (preview_frames w)) eqn:Hm; simpl.
  - exact Hm.
  - apply dict_mem_added.
Qed.

Lemma add_window_present wid name w :
  dict_mem wid (preview_frames w) = true ->
  add_window wid name w = (None, emit (Log (LogAlreadyInPreview wid)) w).
Proof. intros Hm. unfold add_window. now rewrite Hm. Qed.

(** C7.  [add_window] for an id that is already previewed returns [None]
    and leaves the manager as it was but for one warning in the log: same
    previews (and so the same count and the same widgets), same pending
    requests, same detector, and no [register_callback] call.  This is what
    the second of two [add_window] calls for one id does. *)
Theorem duplicate_add_window_is_rejected wid (name1 name2 : string) w :
  (dict_mem wid (preview_frames w) = true ->
   add_window wid name1 w = (None, emit (Log (LogAlreadyInPreview wid)) w)) /\
  (let w1 := snd (add_window wid name1 w) in
   let second := add_window wid name2 w1 in
   fst second = None /\
   trace (snd second) = trace w1 ++ [Log (LogAlreadyInPreview wid)] /\
   preview_frames (snd second) = preview_frames w1 /\
   get_active_window_count (snd second) = get_active_window_count w1 /\
   pending_requests (snd second) = pending_requests w1 /\
   alert_detector (snd second) = alert_detector w1 /\
   capture_system (snd second) = capture_system w1 /\
   (forall k, register_calls k (trace (snd second)) = register_calls k (trace w1))).
Proof.
  split; [apply add_window_present|]. cbv zeta.
  rewrite (add_window_present wid name2 _ (add_window_mem wid name1 w)). simpl.
  repeat split. intros k. unfold register_calls. rewrite omap_app. simpl.
  now rewrite app_nil_r.
Qed.

(** What the registered callback does: one [set_alert] on the preview of
    its window when that is still previewed. *)
Lemma alert_callback_trace wid (level : AlertLevel) w k :
  alert_calls k (trace (alert_callback wid level w)) =
  alert_calls k (trace w) ++
  (if dict_mem wid (preview_frames w)
   then (if decide (wid = k) then [Some level] else [])
   else []).
Proof.
  unfold alert_callback, dict_mem, alert_calls.
  destruct (dict_get wid (preview_frames w)) as [f|]; simpl; [|now rewrite app_nil_r].
  rewrite !omap_app. simpl. destruct (decide (wid = k)); simpl; now rewrite ?app_nil_r.
Qed.

(** C10.  The alert callback registered for a window id calls [set_alert]
    only while that id is previewed: for an id that is not in the registry
    it does nothing at all, in particular after [remove_window] of that id;
    for a previewed id it is one [set_alert] call on that preview. *)
Theorem alert_callback_only_for_registered wid (level : AlertLevel) w :
  (dict_mem wid (preview_frames w) = false -> alert_callback wid level w = w) /\
  alert_callback wid level (remove_window wid w) = remove_window wid w /\
  (forall k, alert_calls k (trace (alert_callback wid level w)) =
             alert_calls k (trace w) ++
             (if dict_mem wid (preview_frames w)
              then (if decide (wid = k) then [Some level] else [])
              else [])) /\
  (forall f, dict_get wid (preview_frames w) = Some f ->
             dict_get wid (preview_frames (alert_callback wid level w)) =
             Some (fst (set_alert level f))).
Proof.
  assert (Hnone : forall w0 : WindowManager B D,
             dict_mem wid (preview_frames w0) = false -> alert_callback wid level w0 = w0).
  { intros w0 Hm. apply dict_mem_false_get in Hm. unfold alert_callback. now rewrite Hm. }
  split; [apply Hnone|]. split; [apply Hnone, remove_window_mem|].
  split; [intros k; apply alert_callback_trace|].
  intros f Hget. unfold alert_callback. rewrite Hget. simpl.
  now rewrite dict_get_replace_eq, Hget.
Qed.

(** C1 (as the code has it).  After [set_refresh_rate fps] the capture loop
    ticks every [1000 // rate] ms, where [rate] is [fps] clamped to 1..60:
    the quotient rounded down, which is [round(1000 / rate)] or one less.
    This holds when the loop is started after the rate was set and when
    the rate is set while the loop runs. *)
Theorem capture_interval_is_floor_of_clamped_rate (fps : Z) w :
  let rate := Z.max 1 (Z.min 60 fps) in
  let w' := start_capture_loop (set_refresh_rate fps w) in
  1 <= rate <= 60 /\
  refresh_rate w' = rate /\
  isActive (capture_timer w') = true /\
  interval (capture_timer w') = 1000 / rate /\
  interval (capture_timer w') * rate <= 1000 < (interval (capture_timer w') + 1) * rate /\
  spec_interval fps - 1 <= interval (capture_timer w') <= spec_interval fps /\
  interval (capture_timer (set_refresh_rate fps (start_capture_loop w))) = 1000 / rate.
Proof.
  intros rate w'.
  assert (Hrate : 1 <= rate <= 60) by (unfold rate; lia).
  assert (Hr : refresh_rate (set_refresh_rate fps w) = rate).
  { unfold set_refresh_rate. simpl. now destruct (isActive (capture_timer w)). }
  assert (Hi : interval (capture_timer w') = 1000 / rate).
  { unfold w', start_capture_loop. simpl. now rewrite Hr. }
  split; [exact Hrate|]. split; [exact Hr|]. split; [reflexivity|].
  split; [exact Hi|]. rewrite Hi.
  pose proof (Z.div_mod 1000 rate ltac:(lia)) as Hdm.
  pose proof (Z.mod_pos_bound 1000 rate ltac:(lia)) as Hmod.
  split; [nia|]. split; [|reflexivity].
  unfold spec_interval, round_div. fold rate.
  destruct (2 * (1000 mod rate) <? rate); [lia|].
  destruct (rate <? 2 * (1000 mod rate)); [lia|].
  destruct (Z.even (1000 / rate)); lia.
Qed.

(** The flash timers only ask for repaints. *)
Lemma flash_timer_ms_events (f : WindowPreviewWidget) :
  snd (flash_timer_ms f) = [] \/ snd (flash_timer_ms f) = [CallUpdate (window_id f)].
Proof.
  unfold flash_timer_ms. destruct (isActive (flash_timer f)); [|now left].
  destruct (remaining (flash_timer f) <=? 1); [now right | now left].
Qed.

Lemma frames_ms_alerts (d : list (string * WindowPreviewWidget)) k :
  omap (as_alert k) (snd (frames_ms d)) = [].
Proof.
  induction d as [|[k0 f0] d IH]; [reflexivity|]. simpl.
  pose proof (flash_timer_ms_events f0) as He.
  destruct (flash_timer_ms f0) as [f' e]. destruct (frames_ms d) as [d' e'].
  simpl in *. rewrite omap_app, IH. destruct He as [-> | ->]; reflexivity.
Qed.

Lemma flash_timers_ms_alerts w k :
  alert_calls k (trace (flash_timers_ms w)) = alert_calls k (trace w).
Proof.
  unfold flash_timers_ms, alert_calls.
  pose proof (frames_ms_alerts (preview_frames w) k) as Hq.
  destruct (frames_ms (preview_frames w)) as [d e]. simpl in *.
  now rewrite omap_app, Hq, app_nil_r.
Qed.

Lemma flash_timers_elapse_alerts (n : nat) :
  forall w k, alert_calls k (trace (flash_timers_elapse n w)) = alert_calls k (trace w).
Proof.
  induction n as [|n IH]; intros w k; simpl; [reflexivity|].
  now rewrite IH, flash_timers_ms_alerts.
Qed.

(** C4 (as the code has it).  The step from ACTIVE to IDLE is taken by
    [_flash_tick] on the last flash: it clears the severity, stops the
    flash timer and asks for a repaint, and that is all; no amount of time
    passing on the flash timers delivers an alert to any preview.  Alerts
    are delivered on triggers only: one [set_alert] call for each alert the
    analysis of a delivered frame returns, and one for each call of the
    registered callback of a previewed window. *)
Theorem idle_transition_delivers_no_alert :
  (forall (f : WindowPreviewWidget),
      alert_flash_counter f <= 1 ->
      alert_level (fst (_flash_tick f)) = None /\
      alert_state (fst (_flash_tick f)) = IDLE /\
      isActive (flash_timer (fst (_flash_tick f))) = false /\
      snd (_flash_tick f) = [CallUpdate (window_id f)]) /\
  (forall (n : nat) w k,
      alert_calls k (trace (flash_timers_elapse n w)) = alert_calls k (trace w)) /\
  (forall w (rid wid : string) (img : Image) (f : WindowPreviewWidget)
          (d' : D) (level : AlertLevel),
      dict_get wid (preview_frames w) = Some f ->
      analyze_frame (alert_detector w) wid img = (d', Returned (Some level)) ->
      alert_calls wid (trace (process_result (rid, wid, Some img) w)) =
      alert_calls wid (trace w) ++ [Some level]) /\
  (forall w (wid : string) (level : AlertLevel),
      dict_mem wid (preview_frames w) = true ->
      alert_calls wid (trace (alert_callback wid level w)) =
      alert_calls wid (trace w) ++ [Some level]).
Proof.
  split.
  { intros f Hc. unfold _flash_tick, alert_state. simpl.
    destruct (Z.leb_spec (alert_flash_counter f - 1) 0); [auto | lia]. }
  split; [intros n w k; apply flash_timers_elapse_alerts|].
  split.
  { intros w rid wid img f d' level Hget Han. unfold process_result.
    rewrite Hget. simpl. rewrite Han. simpl. rewrite dict_get_replace_eq, Hget. simpl.
    unfold alert_calls. rewrite !omap_app. simpl.
    destruct (decide (wid = wid)); [|congruence]. simpl. now rewrite !app_nil_r. }
  intros w wid level Hm. rewrite alert_callback_trace, Hm.
  destruct (decide (wid = wid)); [reflexivity | congruence].
Qed.

End ManagerFacts.

(** * The theorems at work on the scripted manager *)

Lemma two_in_flight_yields :
  yields (capture_system two_in_flight)
         [("r1", "w1", Some a_frame); ("r2", "w2", Some a_frame)]
         (mkScripted [] []).
Proof.
  apply yields_result with (b1 := mkScripted [] [("r2", "w2", Some a_frame)]);
    [reflexivity|].
  apply yields_result with (b1 := mkScripted [] []); [reflexivity|].
  apply yields_empty. reflexivity.
Defined.

Lemma drain_polls_once_more_than_results_witness :
  exists w',
    _process_capture_results 3 two_in_flight = Some w' /\
    poll_calls (trace w') = (poll_calls (trace two_in_flight) + 2 + 1)%nat /\
    capture_system w' = mkScripted [] [].
Proof.
  destruct (drain_polls_once_more_than_results two_in_flight _ _ two_in_flight_yields)
    as [Hrun _].
  apply (Hrun 3%nat). simpl. lia.
Defined.

Lemma removed_target_result_is_dropped_witness :
  pending_requests two_in_flight !! "r1" = Some "w1" /\
  exists w',
    _process_capture_results 3 (remove_window "w1" two_in_flight) = Some w' /\
    (exists evs, trace w' = trace (remove_window "w1" two_in_flight) ++ evs /\
                 no_callback_for "w1" evs) /\
    update_frame_calls "w1" (trace w') =
      update_frame_calls "w1" (trace (remove_window "w1" two_in_flight)) /\
    alert_calls "w1" (trace w') = alert_calls "w1" (trace (remove_window "w1" two_in_flight)) /\
    (forall k, dict_mem k (preview_frames (remove_window "w1" two_in_flight)) = true ->
       update_frame_calls k (trace w') =
       update_frame_calls k (trace (remove_window "w1" two_in_flight)) ++
       frames_for k [("r1", "w1", Some a_frame); ("r2", "w2", Some a_frame)]) /\
    poll_calls (trace w') =
      (poll_calls (trace (remove_window "w1" two_in_flight)) + 2 + 1)%nat.
Proof.
  split; [vm_compute; reflexivity|].
  apply (removed_target_result_is_dropped "w1" two_in_flight
           [("r1", "w1", Some a_frame); ("r2", "w2", Some a_frame)] (mkScripted [] [])).
  apply yields_result with (b1 := mkScripted [] [("r2", "w2", Some a_frame)]);
    [reflexivity|].
  apply yields_result with (b1 := mkScripted [] []); [reflexivity|].
  apply yields_empty. reflexivity.
Defined.

Lemma duplicate_request_id_overwrites_witness :
  pending_requests reused_request_id !! "r1" = Some "w2" /\
  pending_requests (request_capture reused_request_id ("w1", shown_w1)) !! "r1" = Some "w1" /\
  log_records (trace (request_capture reused_request_id ("w1", shown_w1))) =
    log_records (trace reused_request_id).
Proof.
  split; [vm_compute; reflexivity|].
  apply (duplicate_request_id_overwrites reused_request_id "w1" shown_w1
           (mkScripted [] []) "r1"); reflexivity.
Defined.

Lemma duplicate_add_window_is_rejected_witness :
  add_window "w1" "Carol" (two_previews [] [] []) =
  (None, emit (Log (LogAlreadyInPreview "w1")) (two_previews [] [] [])).
Proof.
  apply (duplicate_add_window_is_rejected "w1" "Carol" "Carol" (two_previews [] [] [])).
  reflexivity.
Defined.

Lemma alert_callback_only_for_registered_witness :
  alert_callback "w3" HIGH (two_previews [] [] []) = two_previews [] [] [] /\
  dict_get "w1" (preview_frames (alert_callback "w1" HIGH (two_previews [] [] []))) =
    Some (fst (set_alert HIGH shown_w1)).
Proof.
  destruct (alert_callback_only_for_registered "w3" HIGH (two_previews [] [] []))
    as (Habsent & _).
  destruct (alert_callback_only_for_registered "w1" HIGH (two_previews [] [] []))
    as (_ & _ & _ & Hpresent).
  split; [apply Habsent; reflexivity | apply Hpresent; reflexivity].
Defined.

Lemma idle_transition_delivers_no_alert_witness :
  alert_flash_counter (fst (elapse_ms 2999 after_high)) = 1 /\
  alert_level (fst (_flash_tick (fst (elapse_ms 2999 after_high)))) = None /\
  alert_calls "w1" (trace (alert_callback "w1" HIGH (two_previews [] [] []))) =
    alert_calls "w1" (trace (two_previews [] [] [])) ++ [Some HIGH] /\
  alert_calls "w1" (trace (process_result ("r1", "w1", Some a_frame) high_alert_pending)) =
    alert_calls "w1" (trace high_alert_pending) ++ [Some HIGH].
Proof.
  destruct (@idle_transition_delivers_no_alert ScriptedCapture ScriptedDetector _)
    as (Htick & _ & Hresult & Hcallback).
  split; [vm_compute; reflexivity|].
  split; [apply (Htick (fst (elapse_ms 2999 after_high))); vm_compute; discriminate|].
  split; [apply Hcallback; reflexivity|].
  apply (Hresult high_alert_pending "r1" "w1" a_frame shown_w1
           (fst (analyze_frame (alert_detector high_alert_pending) "w1" a_frame)) HIGH);
    reflexivity.
Defined.

(** * Where the code departs from the spec *)

(** C1, counterexample: at 7 Hz the timer is started with 142 ms,
    [round(1000 / 7)] is 143. *)
Lemma capture_interval_is_not_rounded :
  interval (capture_timer (start_capture_loop (set_refresh_rate 7 idle_manager))) = 142 /\
  spec_interval 7 = 143 /\
  interval (capture_timer (start_capture_loop (set_refresh_rate 7 idle_manager)))
    <> spec_interval 7.
Proof. vm_compute. repeat split; discriminate. Qed.

(** C4, counterexample: HIGH is delivered to "w1" once; 3000 ms later the
    preview is IDLE again, and no alert with severity NONE was delivered:
    the alerts delivered to "w1" are still the one HIGH. *)
Lemma idle_transition_is_not_notified :
  alert_calls "w1" (trace high_alert_delivered) = [Some HIGH] /\
  preview_alert_level "w1" high_alert_delivered = Some (Some HIGH) /\
  preview_alert_level "w1" (flash_timers_elapse 2999 high_alert_delivered) = Some (Some HIGH) /\
  preview_alert_level "w1" (flash_timers_elapse 3000 high_alert_delivered) = Some None /\
  alert_calls "w1" (trace (flash_timers_elapse 3000 high_alert_delivered)) <>
    alert_calls "w1" (trace high_alert_delivered) ++ [None].
Proof. vm_compute. repeat split; discriminate. Qed.

(** C5, counterexample: "r1" is pending for "w2"; the capture system hands
    out "r1" again for "w1"; after the cycle "r1" is bound to "w1" and the
    log is what it was: the entry was overwritten and nothing was logged. *)
Lemma duplicate_request_id_is_not_guarded :
  pending_requests reused_request_id !! "r1" = Some "w2" /\
  pending_requests (request_captures reused_request_id) !! "r1" = Some "w1" /\
  log_records (trace (request_captures reused_request_id)) =
    log_records (trace reused_request_id) /\
  ~ (pending_requests (request_captures reused_request_id) !! "r1" = Some "w2" /\
     log_records (trace (request_captures reused_request_id)) <>
       log_records (trace reused_request_id)).
Proof.
  assert (H1 : pending_requests (request_captures reused_request_id) !! "r1" = Some "w1")
    by (vm_compute; reflexivity).
  split; [vm_compute; reflexivity|]. split; [exact H1|].
  split; [vm_compute; reflexivity|].
  intros [H2 _]. rewrite H1 in H2. discriminate.
Qed.

(** * More on the preview widget *)

Lemma resting_flash_timer_ms (f : WindowPreviewWidget) :
  resting f -> flash_timer_ms f = (f, []).
Proof. intros [_ Hoff]. unfold flash_timer_ms. now rewrite Hoff. Qed.

Lemma resting_elapse_ms (n : nat) (f : WindowPreviewWidget) :
  resting f -> elapse_ms n f = (f, []).
Proof.
  intros Hr. induction n as [|n IH]; [reflexivity|].
  simpl. rewrite (resting_flash_timer_ms f Hr), IH. reflexivity.
Qed.

Lemma elapse_ms_add (a b : nat) :
  forall f : WindowPreviewWidget,
    elapse_ms (a + b) f =
    (fst (elapse_ms b (fst (elapse_ms a f))),
     snd (elapse_ms a f) ++ snd (elapse_ms b (fst (elapse_ms a f)))).
Proof.
  induction a as [|a IH]; intros f.
  - simpl. now destruct (elapse_ms b f).
  - simpl. destruct (flash_timer_ms f) as [f1 e1]. rewrite IH.
    destruct (elapse_ms a f1) as [f2 e2]. simpl. now rewrite app_assoc.
Qed.

(** What one millisecond of a flashing widget asks for: a repaint when the
    timeout is due, and the flash counter goes down with it. *)
Lemma flash_timer_ms_repaint (f : WindowPreviewWidget) :
  flashing f ->
  window_id (fst (flash_timer_ms f)) = window_id f /\
  ((1 < remaining (flash_timer f) /\
    snd (flash_timer_ms f) = [] /\
    alert_flash_counter (fst (flash_timer_ms f)) = alert_flash_counter f) \/
   (remaining (flash_timer f) = 1 /\
    snd (flash_timer_ms f) = [CallUpdate (window_id f)] /\
    alert_flash_counter (fst (flash_timer_ms f)) = alert_flash_counter f - 1)).
Proof.
  intros (_ & Hon & _ & Hrem & _). unfold flash_timer_ms. rewrite Hon.
  destruct (Z.leb_spec (remaining (flash_timer f)) 1) as [Hle | Hgt]; simpl.
  - split; [reflexivity|]. right. repeat split. lia.
  - split; [reflexivity|]. left. repeat split. lia.
Qed.

Lemma flash_timer_ms_last_resting (f : WindowPreviewWidget) :
  flashing f -> time_to_idle f = 1 -> resting (fst (flash_timer_ms f)).
Proof.
  intros Hf Ht. destruct (flash_timer_ms_last f Hf Ht) as (Hl & Hoff & _).
  split; assumption.
Qed.

(** The repaints of a flashing widget that is left alone until its alert
    is over: one for each flash that was left. *)
Lemma elapse_ms_repaints (n : nat) :
  forall f : WindowPreviewWidget,
    flashing f -> time_to_idle f <= Z.of_nat n ->
    snd (elapse_ms n f) =
    replicate (Z.to_nat (alert_flash_counter f)) (CallUpdate (window_id f)).
Proof.
  induction n as [|n IH]; intros f Hf Hn.
  - pose proof (time_to_idle_pos f Hf). lia.
  - pose proof (time_to_idle_pos f Hf) as Hpos.
    destruct (flash_timer_ms_repaint f Hf) as (Hid & Hcase).
    pose proof Hf as (_ & _ & Hint & Hrem & Hc).
    simpl. destruct (flash_timer_ms f) as [f1 e1] eqn:Hstep. simpl in *.
    destruct (Z.eq_dec (time_to_idle f) 1) as [Hone | Hmore].
    + assert (Hr1 : resting f1).
      { pose proof (flash_timer_ms_last_resting f Hf Hone) as Hr. now rewrite Hstep in Hr. }
      rewrite (resting_elapse_ms n f1 Hr1). simpl.
      unfold time_to_idle in Hone. rewrite Hint in Hone.
      assert (Hc1 : alert_flash_counter f = 1) by lia.
      destruct Hcase as [(Hgt & _) | (_ & -> & _)]; [lia|].
      rewrite Hc1. reflexivity.
    + destruct (flash_timer_ms_flashing f Hf) as (Hf1 & _ & _ & Ht1); [lia|].
      rewrite Hstep in Hf1, Ht1. simpl in *.
      assert (IHe := IH f1 Hf1 ltac:(lia)). rewrite Hid in IHe.
      destruct (elapse_ms n f1) as [f2 e2]. simpl in *. rewrite IHe.
      destruct Hf1 as (_ & _ & _ & _ & Hc1).
      destruct Hcase as [(_ & -> & ->) | (Hr & -> & Hdec)]; [reflexivity|].
      rewrite Hdec in *.
      replace (Z.to_nat (alert_flash_counter f))
        with (S (Z.to_nat (alert_flash_counter f - 1))) by lia.
      reflexivity.
Qed.

(** The alert of a flashing widget that is left alone: on until the time
    to idle has passed, off from then on. *)
Lemma elapse_ms_alert_level (n : nat) (f : WindowPreviewWidget) :
  flashing f ->
  alert_level (fst (elapse_ms n f)) =
  if Z.of_nat n <? time_to_idle f then alert_level f else None.
Proof.
  intros Hf. pose proof (time_to_idle_pos f Hf) as Hpos.
  destruct (Z.ltb_spec (Z.of_nat n) (time_to_idle f)) as [Hlt | Hge].
  - now destruct (elapse_ms_flashing n f Hf Hlt) as (_ & Hl & _).
  - replace n with (Z.to_nat (time_to_idle f) + (n - Z.to_nat (time_to_idle f)))%nat by lia.
    rewrite elapse_ms_add. simpl.
    destruct (elapse_ms_to_idle (Z.to_nat (time_to_idle f)) f Hf) as (Hl & Hoff); [lia|].
    rewrite resting_elapse_ms; [exact Hl | split; assumption].
Qed.

Lemma set_alert_time_to_idle_resting (level : AlertLevel) (f : WindowPreviewWidget) :
  resting f -> time_to_idle (fst (set_alert level f)) = 3000.
Proof. intros [_ Hoff]. unfold time_to_idle. simpl. rewrite Hoff. reflexivity. Qed.

Lemma settled_set_alert (level : AlertLevel) (f : WindowPreviewWidget) :
  settled f -> flashing (fst (set_alert level f)).
Proof.
  intros [[_ Hoff] | Hf]; apply set_alert_flashing; [now left | now right].
Qed.

(** X1.  An alert is shown from the trigger until the 30th tick of the flash
    timer after it, and not a millisecond longer: 3000 ms when the widget
    was at rest, the rest of the running period and 2900 ms more when it
    was flashing already. *)
Theorem alert_is_shown_until_thirtieth_tick (f : WindowPreviewWidget) (level : AlertLevel) :
  settled f ->
  2900 < time_to_idle (fst (set_alert level f)) <= 3000 /\
  (resting f -> time_to_idle (fst (set_alert level f)) = 3000) /\
  (flashing f ->
   time_to_idle (fst (set_alert level f)) = remaining (flash_timer f) + 2900) /\
  forall n : nat,
    alert_level (fst (elapse_ms n (fst (set_alert level f)))) =
    if Z.of_nat n <? time_to_idle (fst (set_alert level f)) then Some level else None.
Proof.
  intros Hs. pose proof (settled_set_alert level f Hs) as Hf'.
  split.
  { destruct Hs as [Hr | Hf].
    - rewrite (set_alert_time_to_idle_resting level f Hr). lia.
    - rewrite (set_alert_time_to_idle level f Hf).
      destruct Hf as (_ & _ & _ & Hrem & _). lia. }
  split; [apply set_alert_time_to_idle_resting|].
  split; [apply set_alert_time_to_idle|].
  intros n. now rewrite (elapse_ms_alert_level n _ Hf').
Qed.

Lemma alert_is_shown_until_thirtieth_tick_witness :
  alert_level (fst (elapse_ms 2999 (fst (set_alert LOW preview_w1)))) = Some LOW /\
  alert_level (fst (elapse_ms 3000 (fst (set_alert LOW preview_w1)))) = None.
Proof.
  assert (Hs : settled preview_w1) by (left; split; reflexivity).
  destruct (alert_is_shown_until_thirtieth_tick preview_w1 LOW Hs) as (_ & _ & _ & Hn).
  split; [exact (Hn 2999%nat) | exact (Hn 3000%nat)].
Defined.

(** X2.  An alert that is left alone asks for exactly 30 repaints of its widget,
    one with each tick, and for nothing else. *)
Theorem alert_requests_thirty_repaints (f : WindowPreviewWidget) (level : AlertLevel) (n : nat) :
  settled f ->
  time_to_idle (fst (set_alert level f)) <= Z.of_nat n ->
  snd (elapse_ms n (fst (set_alert level f))) = replicate 30 (CallUpdate (window_id f)).
Proof.
  intros Hs Hn. pose proof (settled_set_alert level f Hs) as Hf'.
  now rewrite (elapse_ms_repaints n _ Hf' Hn).
Qed.

Lemma alert_requests_thirty_repaints_witness :
  snd (elapse_ms 3000 (fst (set_alert HIGH preview_w1))) = replicate 30 (CallUpdate "w1").
Proof.
  apply (alert_requests_thirty_repaints preview_w1 HIGH 3000).
  - left. split; reflexivity.
  - vm_compute. discriminate.
Defined.

Lemma settled_flash_timer_ms (f : WindowPreviewWidget) :
  settled f -> settled (fst (flash_timer_ms f)).
Proof.
  intros [Hr | Hf].
  - rewrite (resting_flash_timer_ms f Hr). now left.
  - pose proof (time_to_idle_pos f Hf) as Hpos.
    destruct (Z.eq_dec (time_to_idle f) 1) as [Hone | Hmore].
    + left. now apply flash_timer_ms_last_resting.
    + right. destruct (flash_timer_ms_flashing f Hf) as (Hf1 & _); [lia | exact Hf1].
Qed.

Lemma settled_elapse_ms (n : nat) :
  forall f : WindowPreviewWidget, settled f -> settled (fst (elapse_ms n f)).
Proof.
  induction n as [|n IH]; intros f Hs; [exact Hs|].
  rewrite elapse_ms_S. apply IH, settled_flash_timer_ms, Hs.
Qed.

(** X3.  Between calls a widget is either at rest or flashing, from [__init__]
    on and whatever is called on it; so the flash timer runs exactly while
    an alert is set, and the alert border is painted, in the colour of the
    level, exactly while an alert is set: the test of the flash counter in
    [paintEvent] never decides. *)
Theorem widget_is_at_rest_or_flashing :
  (forall wid name : string, settled (WindowPreviewWidget_init wid name)) /\
  (forall f : WindowPreviewWidget,
      settled f ->
      (forall level, settled (fst (set_alert level f))) /\
      (forall n, settled (fst (elapse_ms n f))) /\
      (forall image, settled (fst (update_frame image f))) /\
      (forall ancestors_visible v, settled (setVisible ancestors_visible v f)) /\
      (alert_state f = ACTIVE <-> isActive (flash_timer f) = true) /\
      alert_border f = option_map alert_color (alert_level f)).
Proof.
  split; [intros wid name; left; split; reflexivity|].
  intros f Hs.
  split; [intros level; right; now apply settled_set_alert|].
  split; [intros n; now apply settled_elapse_ms|].
  split; [intros [img|]; exact Hs|].
  split; [intros a v; exact Hs|].
  destruct Hs as [[Hl Hoff] | (Hact & Hon & _ & _ & Hc)].
  - split.
    + split; intros Hx; [apply alert_state_idle in Hl | ]; congruence.
    + unfold alert_border. now rewrite Hl.
  - split; [split; auto|].
    apply alert_state_active in Hact as [level Hl].
    unfold alert_border. rewrite Hl. simpl.
    destruct (Z.ltb_spec 0 (alert_flash_counter f)); [reflexivity | lia].
Qed.

Lemma widget_is_at_rest_or_flashing_witness :
  settled after_high /\
  settled (fst (elapse_ms 3000 after_high)) /\
  alert_border after_high = Some (mkColor 255 0 0 200).
Proof.
  destruct widget_is_at_rest_or_flashing as (Hinit & Hstep).
  destruct (Hstep preview_w1 (Hinit "w1" "Pilot")) as (Hset & _).
  destruct (Hstep after_high (Hset HIGH)) as (_ & Hn & _ & _ & _ & Hb).
  split; [exact (Hset HIGH)|]. split; [exact (Hn 3000%nat) | exact Hb].
Defined.

(** * More on the manager *)

Section DictMore.
Context {V : Type}.
Implicit Types (d : list (string * V)) (k : string) (v : V).

Lemma dict_replace_same k v d : dict_get k d = Some v -> dict_replace k v d = d.
Proof.
  induction d as [|[k0 v0] d IH]; simpl; [reflexivity|].
  destruct (decide (k0 = k)) as [->|Hne]; intros Hget.
  - now injection Hget as ->.
  - now rewrite IH.
Qed.

Lemma dict_get_replace k k' v v' d :
  dict_get k' d = Some v' ->
  dict_get k (dict_replace k' v d) = if decide (k' = k) then Some v else dict_get k d.
Proof.
  intros Hget. destruct (decide (k' = k)) as [->|Hne].
  - now rewrite dict_get_replace_eq, Hget.
  - now apply dict_get_replace_ne.
Qed.

Lemma dict_pop_absent k d : dict_get k d = None -> dict_pop k d = d.
Proof.
  induction d as [|[k0 v0] d IH]; simpl; [reflexivity|].
  destruct (decide (k0 = k)); [discriminate|]. intros Hget. now rewrite IH.
Qed.

Lemma dict_pop_app k d1 d2 : dict_pop k (d1 ++ d2) = dict_pop k d1 ++ dict_pop k d2.
Proof.
  induction d1 as [|[k0 v0] d1 IH]; simpl; [reflexivity|].
  destruct (decide (k0 = k)); simpl; now rewrite IH.
Qed.

Lemma dict_pop_length k d :
  NoDup (dict_keys d) -> dict_mem k d = true ->
  S (length (dict_pop k d)) = length d.
Proof.
  unfold dict_mem.
  induction d as [|[k0 v0] d IH]; simpl; intros Hnd Hm; [discriminate|].
  apply NoDup_cons in Hnd as [Hnot Hnd].
  destruct (decide (k0 = k)) as [->|Hne].
  - rewrite dict_pop_absent; [reflexivity|].
    apply dict_mem_false_get. destruct (dict_mem k d) eqn:Hk; [|reflexivity].
    apply dict_mem_keys in Hk. contradiction.
  - simpl. now rewrite IH.
Qed.

End DictMore.

Lemma visible_items_replace k (f f' : WindowPreviewWidget)
    (d : list (string * WindowPreviewWidget)) :
  dict_get k d = Some f -> isVisible f' = isVisible f -> zoom_factor f' = zoom_factor f ->
  visible_items (dict_replace k f' d) = visible_items d.
Proof.
  intros Hget Hv Hz. induction d as [|[k0 f0] d IH]; simpl in *; [reflexivity|].
  destruct (decide (k0 = k)) as [->|Hne]; simpl.
  - injection Hget as ->. now rewrite Hv, Hz.
  - now rewrite IH.
Qed.

Section ManagerMore.
Context {B D : Type} `{CaptureSystem B} `{AlertDetector D}.
Implicit Types (w : WindowManager B D) (r : CaptureResult) (k wid rid : string).

(** The previews after one result: the widget of the window of the result,
    if there is one, shows the new image (unless the capture failed) and is
    otherwise as visible and as zoomed as before; no other binding
    changes. *)
Lemma process_result_frames rid wid (image : option Image) w :
  match dict_get wid (preview_frames w) with
  | None => preview_frames (process_result (rid, wid, image) w) = preview_frames w
  | Some f =>
      exists f',
        preview_frames (process_result (rid, wid, image) w) =
          dict_replace wid f' (preview_frames w) /\
        current_pixmap f' = match image with Some img => Some img | None => current_pixmap f end /\
        isVisible f' = isVisible f /\ zoom_factor f' = zoom_factor f
  end.
Proof.
  unfold process_result.
  destruct (dict_get wid (preview_frames w)) as [f|] eqn:Hget; [|reflexivity].
  destruct image as [img|].
  - destruct (analyze_frame _ wid img) as [d' [[level|]|e]]; simpl;
      rewrite ?dict_get_replace_eq, ?Hget; simpl; rewrite ?dict_replace_replace;
      eexists; (split; [reflexivity|]); simpl; auto.
  - simpl. exists f. auto.
Qed.

Lemma process_result_settings r w :
  refresh_rate (process_result r w) = refresh_rate w /\
  capture_timer (process_result r w) = capture_timer w.
Proof.
  destruct r as [[rid wid] image]. unfold process_result.
  destruct (dict_get wid (preview_frames w)) as [f|] eqn:Hget; [|auto].
  destruct image as [img|]; [|auto].
  destruct (analyze_frame _ wid img) as [d' [[level|]|e]]; simpl;
    rewrite ?dict_get_replace_eq, ?Hget; auto.
Qed.

Lemma process_result_visible_items r w :
  visible_items (preview_frames (process_result r w)) = visible_items (preview_frames w).
Proof.
  destruct r as [[rid wid] image].
  pose proof (process_result_frames rid wid image w) as Hf.
  destruct (dict_get wid (preview_frames w)) as [f|] eqn:Hget; [|now rewrite Hf].
  destruct Hf as (f' & -> & _ & Hv & Hz). now apply (visible_items_replace wid f f').
Qed.

Lemma process_result_pixmap k r w :
  preview_pixmap k (process_result r w) =
  option_map (fun shown => last_image k [r] shown) (preview_pixmap k w).
Proof.
  destruct r as [[rid wid] image]. unfold preview_pixmap.
  pose proof (process_result_frames rid wid image w) as Hf.
  destruct (dict_get wid (preview_frames w)) as [f|] eqn:Hget.
  - destruct Hf as (f' & -> & Hp & _). rewrite (dict_get_replace k wid f' f _ Hget).
    simpl. destruct (decide (wid = k)) as [->|Hne].
    + rewrite Hget. simpl. now rewrite Hp.
    + now destruct (dict_get k (preview_frames w)).
  - rewrite Hf. simpl. destruct (decide (wid = k)) as [->|Hne].
    + now rewrite Hget.
    + now destruct (dict_get k (preview_frames w)).
Qed.

Lemma last_image_cons k r (rs : list CaptureResult) (shown : option Image) :
  last_image k (r :: rs) shown = last_image k rs (last_image k [r] shown).
Proof. destruct r as [[rid wid] image]. reflexivity. Qed.

(** What a drain leaves behind, besides the trace. *)
Lemma drain_over_state (rs : list CaptureResult) :
  forall (processed : nat) w,
    (forall k, preview_pixmap k (drain_over rs processed w) =
               option_map (last_image k rs) (preview_pixmap k w)) /\
    visible_items (preview_frames (drain_over rs processed w)) =
      visible_items (preview_frames w) /\
    pending_requests (drain_over rs processed w) =
      foldl (fun p rid => delete rid p) (pending_requests w) (request_ids rs) /\
    refresh_rate (drain_over rs processed w) = refresh_rate w /\
    capture_timer (drain_over rs processed w) = capture_timer w.
Proof.
  induction rs as [|r rs IH]; intros n w.
  - unfold preview_pixmap. simpl. unfold poll.
    destruct (get_result (capture_system w)) as [b1 res]. simpl.
    destruct (0 <? n)%nat; simpl; repeat split;
      intros k; now destruct (dict_get k (preview_frames w)).
  - destruct (IH (S n) (process_result r (fst (poll w)))) as (Hp & Hv & Hq & Hr & Ht).
    destruct (process_result_settings r (fst (poll w))) as (Hr1 & Ht1).
    assert (Hpoll : preview_frames (fst (poll w)) = preview_frames w /\
                    pending_requests (fst (poll w)) = pending_requests w /\
                    refresh_rate (fst (poll w)) = refresh_rate w /\
                    capture_timer (fst (poll w)) = capture_timer w).
    { unfold poll. destruct (get_result (capture_system w)) as [b1 res]. simpl. auto. }
    destruct Hpoll as (Hf0 & Hq0 & Hr0 & Ht0).
    cbn [drain_over]. split.
    { intros k.
      assert (Hsame : preview_pixmap k (fst (poll w)) = preview_pixmap k w)
        by (unfold preview_pixmap; now rewrite Hf0).
      rewrite Hp, process_result_pixmap, Hsame.
      destruct (preview_pixmap k w) as [shown|]; [|reflexivity].
      cbn [option_map]. f_equal. symmetry. apply last_image_cons. }
    split; [now rewrite Hv, process_result_visible_items, Hf0|].
    split; [rewrite Hq, process_result_pending, Hq0; reflexivity|].
    split; congruence.
Qed.

Lemma foldl_delete_lookup (ids : list string) :
  forall (p : gmap string string) k,
    foldl (fun p rid => delete rid p) p ids !! k =
    if decide (k ∈ ids) then None else p !! k.
Proof.
  induction ids as [|i ids IH]; intros p k; simpl.
  - destruct (decide (k ∈ [])) as [Hin|_]; [inversion Hin | reflexivity].
  - rewrite IH. destruct (decide (k ∈ ids)) as [Hin|Hnin].
    + destruct (decide (k ∈ i :: ids)) as [_|Hn]; [reflexivity|].
      exfalso. apply Hn. now right.
    + destruct (decide (k ∈ i :: ids)) as [Hin'|Hnin'].
      * apply elem_of_cons in Hin' as [->|Hin']; [apply lookup_delete_eq | contradiction].
      * apply lookup_delete_ne. intros ->. apply Hnin'. now left.
Qed.

Lemma request_capture_settings w (item : string * WindowPreviewWidget) :
  refresh_rate (request_capture w item) = refresh_rate w /\
  capture_timer (request_capture w item) = capture_timer w /\
  alert_detector (request_capture w item) = alert_detector w.
Proof.
  destruct item as [wid f]. unfold request_capture.
  destruct (isVisible f); [|auto].
  destruct (capture_window_async _ wid (zoom_factor f)) as [b1 [rid|e]]; simpl; auto.
Qed.

Lemma request_captures_settings (d : list (string * WindowPreviewWidget)) :
  forall w,
    refresh_rate (fold_left request_capture d w) = refresh_rate w /\
    capture_timer (fold_left request_capture d w) = capture_timer w /\
    alert_detector (fold_left request_capture d w) = alert_detector w.
Proof.
  induction d as [|item d IH]; intros w; [auto|].
  cbn [fold_left]. destruct (IH (request_capture w item)) as (H1 & H2 & H3).
  destruct (request_capture_settings w item) as (H4 & H5 & H6).
  repeat split; congruence.
Qed.

Lemma request_captures_pending (d : list (string * WindowPreviewWidget)) rid wid :
  forall w,
    pending_requests (fold_left request_capture d w) !! rid = Some wid ->
    pending_requests w !! rid = Some wid \/
    exists scale, (wid, scale) ∈ visible_items d.
Proof.
  induction d as [|[k f] d IH]; intros w Hl; [now left|].
  cbn [fold_left] in Hl. apply IH in Hl as [Hl | [scale Hin]].
  - unfold request_capture in Hl. simpl. destruct (isVisible f); [|now left].
    destruct (capture_window_async _ k (zoom_factor f)) as [b1 [rid0|e]]; simpl in Hl;
      [|now left].
    destruct (decide (rid0 = rid)) as [->|Hne].
    + rewrite lookup_insert_eq in Hl. injection Hl as ->.
      right. exists (zoom_factor f). now left.
    + rewrite lookup_insert_ne in Hl by exact Hne. now left.
  - right. exists scale. simpl. destruct (isVisible f); [now right | exact Hin].
Qed.


(** X5.  Last resolved wins: after a drain every preview shows the image of the
    last successful result that was polled for its window, and what it
    showed before when there was none; a failed capture never replaces the
    image on display. *)
Theorem last_resolved_frame_is_shown w (rs : list CaptureResult) (b' : B) :
  yields (capture_system w) rs b' ->
  exists w',
    _process_capture_results (S (length rs)) w = Some w' /\
    forall k, preview_pixmap k w' = option_map (last_image k rs) (preview_pixmap k w).
Proof.
  intros Hy.
  assert (Hfuel : (length rs < S (length rs))%nat) by lia.
  destruct (drain_loop_yields _ _ _ Hy _ 0%nat w eq_refl Hfuel) as [Hrun _].
  exists (drain_over rs 0 w). split; [exact Hrun|].
  apply (drain_over_state rs 0%nat w).
Qed.

(** X6.  A drain removes from [pending_requests] the request ids of the results
    it polled, for previewed and for removed windows alike, and no other
    entry. *)
Theorem drain_pops_the_polled_requests w (rs : list CaptureResult) (b' : B) :
  yields (capture_system w) rs b' ->
  exists w',
    _process_capture_results (S (length rs)) w = Some w' /\
    (forall rid, rid ∈ request_ids rs -> pending_requests w' !! rid = None) /\
    (forall rid, rid ∉ request_ids rs ->
                 pending_requests w' !! rid = pending_requests w !! rid).
Proof.
  intros Hy.
  assert (Hfuel : (length rs < S (length rs))%nat) by lia.
  destruct (drain_loop_yields _ _ _ Hy _ 0%nat w eq_refl Hfuel) as [Hrun _].
  exists (drain_over rs 0 w). split; [exact Hrun|].
  destruct (drain_over_state rs 0%nat w) as (_ & _ & Hq & _). rewrite Hq.
  split; intros rid Hin; rewrite foldl_delete_lookup;
    destruct (decide (rid ∈ request_ids rs)); auto; contradiction.
Qed.

(** X7.  A tick of the capture loop leaves the registry and the settings alone:
    the same window ids in the same order, the same visibility and zoom
    (so the next tick submits for the same windows), the same refresh rate
    and the same capture timer. *)
Theorem tick_keeps_registry_and_settings w (rs : list CaptureResult) (b' : B) :
  yields (capture_system (request_captures w)) rs b' ->
  exists w',
    _capture_cycle (S (length rs)) w = Some w' /\
    dict_keys (preview_frames w') = dict_keys (preview_frames w) /\
    get_active_window_count w' = get_active_window_count w /\
    visible_items (preview_frames w') = visible_items (preview_frames w) /\
    refresh_rate w' = refresh_rate w /\
    capture_timer w' = capture_timer w.
Proof.
  intros Hy. unfold _capture_cycle, _process_capture_results.
  assert (Hfuel : (length rs < S (length rs))%nat) by lia.
  destruct (drain_loop_yields _ _ _ Hy _ 0%nat (request_captures w) eq_refl Hfuel)
    as [Hrun _].
  exists (drain_over rs 0 (request_captures w)). split; [exact Hrun|].
  destruct (drain_over_state rs 0%nat (request_captures w)) as (_ & Hv & _ & Hr & Ht).
  destruct (request_captures_fold (preview_frames w) w) as (Hf & _).
  destruct (request_captures_settings (preview_frames w) w) as (Hr0 & Ht0 & _).
  fold (request_captures w) in Hf, Hr0, Ht0.
  assert (Hk : dict_keys (preview_frames (drain_over rs 0 (request_captures w))) =
               dict_keys (preview_frames w)) by (now rewrite drain_over_keys, Hf).
  split; [exact Hk|].
  split.
  { unfold get_active_window_count.
    rewrite <- (length_map fst (preview_frames w)), <- (length_map fst).
    fold (dict_keys (preview_frames w)). unfold dict_keys in Hk. now rewrite Hk. }
  split; [now rewrite Hv, Hf|]. split; congruence.
Qed.

Lemma request_captures_state (d : list (string * WindowPreviewWidget)) :
  forall w,
    capture_system (fold_left request_capture d w) =
      fst (submit_all (visible_items d) (capture_system w)) /\
    pending_requests (fold_left request_capture d w) =
      record_all (snd (submit_all (visible_items d) (capture_system w)))
                 (pending_requests w).
Proof.
  induction d as [|[k f] d IH]; intros w; [split; reflexivity|].
  cbn [fold_left]. destruct (IH (request_capture w (k, f))) as (Hb & Hp).
  rewrite Hb, Hp. unfold request_capture. simpl.
  destruct (isVisible f); [|split; reflexivity]. simpl.
  destruct (capture_window_async (capture_system w) k (zoom_factor f)) as [b1 [rid|e]];
    simpl; destruct (submit_all (visible_items d) b1) as [b2 answers]; split; reflexivity.
Qed.

Lemma submit_all_windows (items : list (string * Q)) :
  forall b : B, map fst (snd (submit_all items b)) = map fst items.
Proof.
  induction items as [|[wid scale] items IH]; intros b; [reflexivity|].
  simpl. destruct (capture_window_async b wid scale) as [b1 answer].
  specialize (IH b1). destruct (submit_all items b1) as [b2 answers].
  simpl in *. now rewrite IH.
Qed.

Lemma record_all_changed (answers : list (string * Outcome string)) rid :
  forall p : gmap string string,
    record_all answers p !! rid <> p !! rid ->
    exists wid, (wid, Returned rid) ∈ answers.
Proof.
  induction answers as [|[wid [rid0|e]] answers IH]; intros p Hne; simpl in Hne.
  - congruence.
  - destruct (decide (rid0 = rid)) as [->|Hdiff]; [exists wid; now left|].
    destruct (IH (<[rid0 := wid]> p)) as [wid' Hin].
    + now rewrite lookup_insert_ne by exact Hdiff.
    + exists wid'. now right.
  - destruct (IH p Hne) as [wid' Hin]. exists wid'. now right.
Qed.

Lemma record_all_failures (answers : list (string * Outcome string)) :
  forall p : gmap string string,
    Forall (fun a => exists e, snd a = Raised e) answers -> record_all answers p = p.
Proof.
  induction answers as [|[wid [rid0|e]] answers IH]; intros p Hall; [reflexivity| |].
  - apply Forall_cons in Hall as [[e He] _]. discriminate.
  - apply Forall_cons in Hall as [_ Hall]. simpl. now apply IH.
Qed.

(** X8.  The submissions of a tick record the answers of the capture system
    and nothing else: [pending_requests] afterwards is the map before with
    each returned request id bound to the window it was returned for, in
    the order of the submissions.  So an entry that is pending afterwards
    was pending before or is for a window that is previewed and visible;
    an entry that changed is for a request id that a submission returned;
    and a submission that raised records nothing: when all of them raise
    the map is what it was. *)
Theorem recorded_requests_are_for_visible_previews w :
  pending_requests (request_captures w) =
    record_all (snd (submit_all (visible_items (preview_frames w)) (capture_system w)))
               (pending_requests w) /\
  (forall rid wid,
     pending_requests (request_captures w) !! rid = Some wid ->
     pending_requests w !! rid = Some wid \/
     exists scale, (wid, scale) ∈ visible_items (preview_frames w)) /\
  (forall rid,
     pending_requests (request_captures w) !! rid <> pending_requests w !! rid ->
     exists wid,
       (wid, Returned rid) ∈
       snd (submit_all (visible_items (preview_frames w)) (capture_system w))) /\
  (Forall (fun a => exists e, snd a = Raised e)
          (snd (submit_all (visible_items (preview_frames w)) (capture_system w))) ->
   pending_requests (request_captures w) = pending_requests w).
Proof.
  destruct (request_captures_state (preview_frames w) w) as (_ & Hp).
  fold (request_captures w) in Hp.
  split; [exact Hp|]. split; [intros rid wid; apply request_captures_pending|].
  split.
  - intros rid Hne. rewrite Hp in Hne. now apply record_all_changed in Hne.
  - intros Hall. rewrite Hp. now apply record_all_failures.
Qed.

(** X9.  [remove_window] of an id that is not previewed does nothing at all.  Of
    a previewed id it unregisters the alert callback, forgets the preview
    and its widget is deleted later: the count goes down by one and every
    other preview is untouched.  In both cases the pending requests stay
    as they are, those of the removed window included. *)
Theorem remove_window_forgets_one_preview wid w :
  (dict_mem wid (preview_frames w) = false -> remove_window wid w = w) /\
  (dict_mem wid (preview_frames w) = true ->
   trace (remove_window wid w) =
     trace w ++ [CallUnregisterCallback wid; CallDeleteLater wid; Log (LogRemoved wid)] /\
   alert_detector (remove_window wid w) = unregister_callback (alert_detector w) wid /\
   (NoDup (dict_keys (preview_frames w)) ->
    S (get_active_window_count (remove_window wid w)) = get_active_window_count w)) /\
  dict_get wid (preview_frames (remove_window wid w)) = None /\
  (forall k, k <> wid ->
     dict_get k (preview_frames (remove_window wid w)) = dict_get k (preview_frames w)) /\
  pending_requests (remove_window wid w) = pending_requests w /\
  capture_system (remove_window wid w) = capture_system w.
Proof.
  unfold remove_window. destruct (dict_mem wid (preview_frames w)) eqn:Hm; simpl.
  - split; [discriminate|]. split.
    { intros _. split; [now rewrite <- !app_assoc|]. split; [reflexivity|].
      intros Hnd. now apply dict_pop_length. }
    split; [apply dict_get_pop_eq|]. split; [|auto].
    intros k Hk. apply dict_get_pop_ne. congruence.
  - split; [reflexivity|]. split; [discriminate|].
    split; [now apply dict_mem_false_get|]. auto.
Qed.

(** X10.  [add_window] of an id that is not previewed returns a new widget at
    rest (no alert, no image, 30% zoom), previews it under the id behind
    all other previews, which it leaves untouched, and registers one alert
    callback for the id. *)
Theorem add_window_previews_a_new_widget wid name w :
  dict_mem wid (preview_frames w) = false ->
  fst (add_window wid name w) = Some (WindowPreviewWidget_init wid name) /\
  dict_get wid (preview_frames (snd (add_window wid name w))) =
    Some (WindowPreviewWidget_init wid name) /\
  (forall k, k <> wid ->
     dict_get k (preview_frames (snd (add_window wid name w))) =
     dict_get k (preview_frames w)) /\
  dict_keys (preview_frames (snd (add_window wid name w))) =
    dict_keys (preview_frames w) ++ [wid] /\
  get_active_window_count (snd (add_window wid name w)) = S (get_active_window_count w) /\
  trace (snd (add_window wid name w)) =
    trace w ++ [CallRegisterCallback wid; Log (LogAdded wid name)] /\
  alert_detector (snd (add_window wid name w)) = register_callback (alert_detector w) wid /\
  pending_requests (snd (add_window wid name w)) = pending_requests w.
Proof.
  intros Hm. unfold add_window. rewrite Hm. simpl.
  apply dict_mem_false_get in Hm.
  split; [reflexivity|].
  split. { rewrite dict_get_app, Hm. simpl. now destruct (decide (wid = wid)). }
  split.
  { intros k Hk. rewrite dict_get_app. destruct (dict_get k (preview_frames w)); [reflexivity|].
    simpl. destruct (decide (wid = k)); [congruence | reflexivity]. }
  split; [unfold dict_keys; now rewrite map_app|].
  split; [unfold get_active_window_count; simpl; rewrite length_app; simpl; lia|].
  split; [now rewrite <- app_assoc|]. auto.
Qed.

(** X11.  Adding a window that was not previewed and removing it again gives
    back the previews as they were, widget for widget and in the same
    order, with the callback registered and unregistered once each and the
    pending requests untouched. *)
Theorem add_then_remove_restores_previews wid name w :
  dict_mem wid (preview_frames w) = false ->
  preview_frames (remove_window wid (snd (add_window wid name w))) = preview_frames w /\
  pending_requests (remove_window wid (snd (add_window wid name w))) = pending_requests w /\
  alert_detector (remove_window wid (snd (add_window wid name w))) =
    unregister_callback (register_callback (alert_detector w) wid) wid /\
  trace (remove_window wid (snd (add_window wid name w))) =
    trace w ++ [CallRegisterCallback wid; Log (LogAdded wid name);
                CallUnregisterCallback wid; CallDeleteLater wid; Log (LogRemoved wid)].
Proof.
  intros Hm. unfold remove_window. rewrite add_window_mem.
  unfold add_window. rewrite Hm. simpl.
  apply dict_mem_false_get in Hm.
  split.
  { rewrite dict_pop_app, (dict_pop_absent wid _ Hm). simpl.
    destruct (decide (wid = wid)); [apply app_nil_r | congruence]. }
  split; [reflexivity|]. split; [reflexivity|]. now rewrite <- !app_assoc.
Qed.

Lemma interval_bounds (rate : Z) : 1 <= rate <= 60 -> 16 <= 1000 / rate <= 1000.
Proof.
  intros Hr. split.
  - apply Z.div_le_lower_bound; lia.
  - apply Z.div_le_upper_bound; lia.
Qed.

(** X12.  [set_refresh_rate] never starts a stopped capture loop and never stops
    a running one, and the rate it stores is within 1..60.  On a stopped
    loop it changes nothing but the rate and logs nothing; a running loop
    is stopped and started with the new interval, which is between 16 ms
    and 1000 ms.  The previews and the pending requests are not touched. *)
Theorem set_refresh_rate_keeps_loop_state (fps : Z) w :
  isActive (capture_timer (set_refresh_rate fps w)) = isActive (capture_timer w) /\
  1 <= refresh_rate (set_refresh_rate fps w) <= 60 /\
  preview_frames (set_refresh_rate fps w) = preview_frames w /\
  pending_requests (set_refresh_rate fps w) = pending_requests w /\
  (isActive (capture_timer w) = false ->
   capture_timer (set_refresh_rate fps w) = capture_timer w /\
   trace (set_refresh_rate fps w) = trace w) /\
  (isActive (capture_timer w) = true ->
   interval (capture_timer (set_refresh_rate fps w)) =
     1000 / refresh_rate (set_refresh_rate fps w) /\
   16 <= interval (capture_timer (set_refresh_rate fps w)) <= 1000 /\
   trace (set_refresh_rate fps w) =
     trace w ++ [Log LogCaptureLoopStopped;
                 Log (LogCaptureLoopStarted (Z.max 1 (Z.min 60 fps))
                                            (1000 / Z.max 1 (Z.min 60 fps)))]) /\
  isActive (capture_timer (set_refresh_rate fps (stop_capture_loop w))) = false.
Proof.
  unfold set_refresh_rate. simpl.
  destruct (isActive (capture_timer w)) eqn:Hon; simpl; rewrite ?Hon.
  - split; [reflexivity|]. split; [lia|]. split; [reflexivity|]. split; [reflexivity|].
    split; [discriminate|]. split; [|reflexivity].
    intros _. split; [reflexivity|]. split; [apply interval_bounds; lia|].
    now rewrite <- app_assoc.
  - split; [reflexivity|]. split; [lia|]. split; [reflexivity|]. split; [reflexivity|].
    split; [auto|]. split; [discriminate | reflexivity].
Qed.

(** C8.  A tick submits for the visible previews and for nothing else.
    The capture system is asked by [capture_window_async] once for each
    visible item of [preview_frames], in order, with the zoom factor of the
    preview as scale, and each request id it returns is recorded for its
    window: after the submissions the capture system is in the state these
    calls leave it in and [pending_requests] holds their answers.  For
    every window id that is one call when its preview is visible and none
    when it is hidden or not previewed.  The drain that ends the tick
    makes no submission; it polls from the state the submissions left and
    removes the request ids of the results it polled. *)
Theorem tick_submits_once_per_visible_target w (rs : list CaptureResult) (b' : B) :
  NoDup (dict_keys (preview_frames w)) ->
  yields (fst (submit_all (visible_items (preview_frames w)) (capture_system w))) rs b' ->
  exists w',
    _capture_cycle (S (length rs)) w = Some w' /\
    all_submit_calls (trace w') =
      all_submit_calls (trace w) ++ visible_items (preview_frames w) /\
    (forall k,
       submit_calls k (trace w') =
       submit_calls k (trace w) ++
       match dict_get k (preview_frames w) with
       | Some f => if isVisible f then [zoom_factor f] else []
       | None => []
       end) /\
    capture_system (request_captures w) =
      fst (submit_all (visible_items (preview_frames w)) (capture_system w)) /\
    map fst (snd (submit_all (visible_items (preview_frames w)) (capture_system w))) =
      map fst (visible_items (preview_frames w)) /\
    pending_requests (request_captures w) =
      record_all (snd (submit_all (visible_items (preview_frames w)) (capture_system w)))
                 (pending_requests w) /\
    capture_system w' = b' /\
    pending_requests w' =
      foldl (fun p rid => delete rid p) (pending_requests (request_captures w))
            (request_ids rs).
Proof.
  intros Hnd Hy. unfold _capture_cycle, _process_capture_results.
  destruct (request_captures_state (preview_frames w) w) as (Hb & Hp).
  fold (request_captures w) in Hb, Hp. rewrite <- Hb in Hy.
  assert (Hfuel : (length rs < S (length rs))%nat) by lia.
  destruct (drain_loop_yields _ _ _ Hy _ 0%nat (request_captures w) eq_refl Hfuel)
    as [Hrun Hb'].
  destruct (drain_over_trace rs 0%nat (request_captures w)) as (e2 & Ht2 & _ & Hs2 & _).
  destruct (drain_over_state rs 0%nat (request_captures w)) as (_ & _ & Hq & _).
  destruct (request_captures_fold (preview_frames w) w) as (_ & e1 & Ht1 & Hs1 & _).
  fold (request_captures w) in Ht1.
  assert (Hall : all_submit_calls (trace (drain_over rs 0 (request_captures w))) =
                 all_submit_calls (trace w) ++ visible_items (preview_frames w)).
  { unfold all_submit_calls. rewrite Ht2, Ht1, !omap_app, Hs1, Hs2. apply app_nil_r. }
  exists (drain_over rs 0 (request_captures w)).
  split; [exact Hrun|]. split; [exact Hall|].
  split.
  { intros k. rewrite !submit_calls_scales_for, Hall, scales_for_app.
    now rewrite scales_for_visible_items. }
  split; [exact Hb|]. split; [apply submit_all_windows|]. split; [exact Hp|].
  split; [exact Hb' | exact Hq].
Qed.

End ManagerMore.

Lemma remove_window_forgets_one_preview_witness :
  remove_window "w3" (two_previews [] [] []) = two_previews [] [] [] /\
  S (get_active_window_count (remove_window "w1" (two_previews [] [] []))) =
    get_active_window_count (two_previews [] [] []).
Proof.
  destruct (remove_window_forgets_one_preview "w3" (two_previews [] [] [])) as (Habsent & _).
  destruct (remove_window_forgets_one_preview "w1" (two_previews [] [] []))
    as (_ & Hpresent & _).
  split; [apply Habsent; reflexivity|].
  destruct (Hpresent eq_refl) as (_ & _ & Hcount). apply Hcount.
  apply (bool_decide_unpack _). vm_compute. reflexivity.
Defined.

Lemma add_window_previews_a_new_widget_witness :
  dict_get "w3" (preview_frames (snd (add_window "w3" "Carol" (two_previews [] [] [])))) =
    Some (WindowPreviewWidget_init "w3" "Carol") /\
  dict_keys (preview_frames (snd (add_window "w3" "Carol" (two_previews [] [] [])))) =
    dict_keys (preview_frames (two_previews [] [] [])) ++ ["w3"].
Proof.
  destruct (add_window_previews_a_new_widget "w3" "Carol" (two_previews [] [] []) eq_refl)
    as (_ & Hget & _ & Hkeys & _).
  split; [exact Hget | exact Hkeys].
Defined.

Lemma add_then_remove_restores_previews_witness :
  preview_frames (remove_window "w3" (snd (add_window "w3" "Carol" (two_previews [] [] [])))) =
  preview_frames (two_previews [] [] []).
Proof.
  apply (add_then_remove_restores_previews "w3" "Carol" (two_previews [] [] [])).
  reflexivity.
Defined.

Lemma set_refresh_rate_keeps_loop_state_witness :
  capture_timer (set_refresh_rate 100 idle_manager) = capture_timer idle_manager /\
  interval (capture_timer (set_refresh_rate 100 (start_capture_loop idle_manager))) = 16.
Proof.
  destruct (set_refresh_rate_keeps_loop_state 100 idle_manager)
    as (_ & _ & _ & _ & Hoff & _).
  destruct (set_refresh_rate_keeps_loop_state 100 (start_capture_loop idle_manager))
    as (_ & _ & _ & _ & _ & Hon & _).
  split; [apply Hoff; reflexivity|].
  destruct (Hon eq_refl) as (Hi & _). rewrite Hi. reflexivity.
Defined.


Lemma frame_then_failure_yields :
  yields (capture_system frame_then_failure)
         [("r1", "w1", Some a_frame); ("r2", "w1", None)]
         (mkScripted [] []).
Proof.
  apply yields_result with (b1 := mkScripted [] [("r2", "w1", None)]); [reflexivity|].
  apply yields_result with (b1 := mkScripted [] []); [reflexivity|].
  apply yields_empty. reflexivity.
Defined.

Lemma last_resolved_frame_is_shown_witness :
  exists w',
    _process_capture_results 3 frame_then_failure = Some w' /\
    preview_pixmap "w1" w' = Some (Some a_frame) /\
    preview_pixmap "w2" w' = Some None.
Proof.
  destruct (last_resolved_frame_is_shown frame_then_failure _ _ frame_then_failure_yields)
    as (w' & Hrun & Hshown).
  exists w'. split; [exact Hrun|]. rewrite !Hshown. split; reflexivity.
Defined.

Lemma drain_pops_the_polled_requests_witness :
  exists w',
    _process_capture_results 3 two_in_flight = Some w' /\
    pending_requests w' !! "r1" = None /\
    pending_requests w' !! "r7" = pending_requests two_in_flight !! "r7".
Proof.
  destruct (drain_pops_the_polled_requests two_in_flight _ _ two_in_flight_yields)
    as (w' & Hrun & Hgone & Hkept).
  exists w'. split; [exact Hrun|]. split.
  - apply Hgone. apply (bool_decide_unpack _). vm_compute. reflexivity.
  - apply Hkept. apply (bool_decide_unpack _). vm_compute. reflexivity.
Defined.

Lemma tick_keeps_registry_and_settings_witness :
  exists w',
    _capture_cycle 3 two_in_flight = Some w' /\
    dict_keys (preview_frames w') = ["w1"; "w2"] /\
    get_active_window_count w' = 2%nat /\
    visible_items (preview_frames w') = [("w1", (3 # 10)%Q)] /\
    refresh_rate w' = 30 /\
    capture_timer w' = QTimer_new.
Proof.
  apply (tick_keeps_registry_and_settings two_in_flight
           [("r1", "w1", Some a_frame); ("r2", "w2", Some a_frame)] (mkScripted [] [])).
  apply yields_result with (b1 := mkScripted [] [("r2", "w2", Some a_frame)]);
    [reflexivity|].
  apply yields_result with (b1 := mkScripted [] []); [reflexivity|].
  apply yields_empty. reflexivity.
Defined.

(** * MainTab *)

Section TabFacts.
Context {B D : Type} `{CaptureSystem B} `{AlertDetector D} `{WindowControl B}.
Implicit Types (t : MainTab B D) (w : WindowManager B D) (k wid : string).

(** One scanned window: skipped when its id is previewed, added behind the
    other previews otherwise. *)
Lemma import_window_spec t (a s : nat) wid (title name : string) :
  (dict_mem wid (preview_frames (window_manager t)) = true /\
   import_window (t, a, s) (wid, title, name) = (t, a, S s)) \/
  (dict_mem wid (preview_frames (window_manager t)) = false /\
   exists t1,
     import_window (t, a, s) (wid, title, name) = (t1, S a, s) /\
     preview_frames (window_manager t1) =
       preview_frames (window_manager t) ++ [(wid, WindowPreviewWidget_init wid name)] /\
     pending_requests (window_manager t1) = pending_requests (window_manager t) /\
     refresh_rate (window_manager t1) = refresh_rate (window_manager t) /\
     register_calls wid (trace (window_manager t1)) =
       S (register_calls wid (trace (window_manager t))) /\
     _thumbnails_visible t1 = _thumbnails_visible t).
Proof.
  unfold import_window, add_window.
  destruct (dict_mem wid (preview_frames (window_manager t))) eqn:Hm; [left; auto|].
  right. split; [reflexivity|]. simpl. eexists. split; [reflexivity|]. simpl.
  repeat split. unfold register_calls. rewrite <- app_assoc, omap_app. simpl.
  destruct (decide (wid = wid)); [|congruence]. simpl. rewrite length_app. simpl. lia.
Qed.

(** The loop of [one_click_import], from any state of the counters. *)
Lemma import_windows_spec (scan : list (string * string * string)) :
  forall t (a s : nat),
  exists t1 a1 s1,
    fold_left import_window scan (t, a, s) = (t1, a1, s1) /\
    (a1 + s1 = a + s + length scan)%nat /\
    (get_active_window_count (window_manager t1) + a =
       get_active_window_count (window_manager t) + a1)%nat /\
    (forall k, dict_mem k (preview_frames (window_manager t)) = true ->
       dict_get k (preview_frames (window_manager t1)) =
       dict_get k (preview_frames (window_manager t))) /\
    (forall k, dict_mem k (preview_frames (window_manager t1)) = true <->
       dict_mem k (preview_frames (window_manager t)) = true \/ k ∈ scanned_ids scan) /\
    (NoDup (dict_keys (preview_frames (window_manager t))) ->
     NoDup (dict_keys (preview_frames (window_manager t1)))) /\
    pending_requests (window_manager t1) = pending_requests (window_manager t) /\
    refresh_rate (window_manager t1) = refresh_rate (window_manager t) /\
    _thumbnails_visible t1 = _thumbnails_visible t.
Proof.
  induction scan as [|[[wid title] name] scan IH]; intros t a s.
  - exists t, a, s. simpl. split; [reflexivity|]. split; [lia|]. split; [lia|].
    split; [auto|]. split; [|auto].
    intros k. split; [now left|]. intros [Hk|Hk]; [exact Hk | inversion Hk].
  - cbn [fold_left].
    destruct (import_window_spec t a s wid title name)
      as [(Hm & ->) | (Hm & t0 & -> & Hf & Hp & Hr & _ & Hv)].
    + destruct (IH t a (S s)) as (t1 & a1 & s1 & Hrun & Hsum & Hcnt & Hold & Hmem & Hnd & Hrest).
      exists t1, a1, s1. split; [exact Hrun|]. split; [simpl; lia|]. split; [exact Hcnt|].
      split; [exact Hold|]. split; [|split; [exact Hnd | exact Hrest]].
      intros k. rewrite Hmem. simpl. split.
      * intros [Hk|Hk]; [now left | right; now right].
      * intros [Hk|Hk]; [now left|].
        apply elem_of_cons in Hk as [->|Hk]; [now left | now right].
    + destruct (IH t0 (S a) s) as (t1 & a1 & s1 & Hrun & Hsum & Hcnt & Hold & Hmem & Hnd & Hp1 & Hr1 & Hv1).
      assert (Hget0 : forall k, dict_get k (preview_frames (window_manager t0)) =
                match dict_get k (preview_frames (window_manager t)) with
                | Some f => Some f
                | None => if decide (wid = k) then Some (WindowPreviewWidget_init wid name)
                          else None
                end).
      { intros k. rewrite Hf, dict_get_app. reflexivity. }
      assert (Hmem0 : forall k, dict_mem k (preview_frames (window_manager t0)) = true <->
                dict_mem k (preview_frames (window_manager t)) = true \/ k = wid).
      { intros k. unfold dict_mem. rewrite Hget0.
        destruct (dict_get k (preview_frames (window_manager t))).
        - split; [now left | reflexivity].
        - destruct (decide (wid = k)) as [->|Hne].
          + split; [now right | reflexivity].
          + split; [discriminate | intros [Hx| ->]; [discriminate | congruence]]. }
      exists t1, a1, s1. split; [exact Hrun|]. split; [simpl; lia|].
      split.
      { unfold get_active_window_count in *. rewrite Hf, length_app in Hcnt. simpl in Hcnt. lia. }
      split.
      { intros k Hk. rewrite Hold by (apply Hmem0; now left).
        rewrite Hget0. apply dict_mem_true_get in Hk as [f ->]. reflexivity. }
      split.
      { intros k. rewrite Hmem, Hmem0. simpl. split.
        - intros [[Hk| ->]|Hk]; [now left | right; now left | right; now right].
        - intros [Hk|Hk]; [left; now left|].
          apply elem_of_cons in Hk as [->|Hk]; [left; now right | now right]. }
      split.
      { intros Hnd0. apply Hnd. rewrite Hf. now apply NoDup_keys_added. }
      split; [congruence|]. split; congruence.
Qed.

Lemma update_status_spec t :
  window_manager (_update_status t) = window_manager t /\
  _thumbnails_visible (_update_status t) = _thumbnails_visible t /\
  tab_trace (_update_status t) = tab_trace t /\
  active_count_label (_update_status t) = get_active_window_count (window_manager t) /\
  status_label (_update_status t) =
    if (get_active_window_count (window_manager t) =? 0)%nat then StatusNoWindowsInPreview
    else StatusCapturing (get_active_window_count (window_manager t))
                         (refresh_rate (window_manager t)).
Proof. unfold _update_status. simpl. auto. Qed.

(** [one_click_import] of a non-empty scan, in terms of its loop. *)
Lemma one_click_import_loop (scan : list (string * string * string)) t :
  scan <> [] ->
  exists t1 added skipped,
    fold_left import_window scan (tab_emit [TabLog TabLogImportStarted] t, 0%nat, 0%nat) =
      (t1, added, skipped) /\
    window_manager (one_click_import scan t) = window_manager t1 /\
    _thumbnails_visible (one_click_import scan t) = _thumbnails_visible t1 /\
    active_count_label (one_click_import scan t) = get_active_window_count (window_manager t1) /\
    status_label (one_click_import scan t) =
      (if (get_active_window_count (window_manager t1) =? 0)%nat then StatusNoWindowsInPreview
       else StatusCapturing (get_active_window_count (window_manager t1))
                            (refresh_rate (window_manager t1))).
Proof.
  intros Hne. destruct scan as [|win scan]; [congruence|].
  unfold one_click_import.
  destruct (fold_left import_window (win :: scan) _) as [[t1 added] skipped] eqn:Hrun.
  exists t1, added, skipped. split; [reflexivity|].
  destruct (0 <? added)%nat; [simpl; auto|].
  destruct (0 <? skipped)%nat; simpl; auto.
Qed.

(** X13.  [one_click_import] of a scan that found windows: afterwards the
    previewed ids are those previewed before and the scanned ones, each
    once; the previews that were there are untouched; every scanned window
    was added or skipped, and the number of previews grew by the number
    added; the status bar shows the new count and the capture status, not
    the summary of the import. *)
Theorem one_click_import_previews_every_scanned_window
    (scan : list (string * string * string)) t :
  scan <> [] ->
  (forall k, dict_mem k (preview_frames (window_manager (one_click_import scan t))) = true <->
     dict_mem k (preview_frames (window_manager t)) = true \/ k ∈ scanned_ids scan) /\
  (forall k, dict_mem k (preview_frames (window_manager t)) = true ->
     dict_get k (preview_frames (window_manager (one_click_import scan t))) =
     dict_get k (preview_frames (window_manager t))) /\
  (NoDup (dict_keys (preview_frames (window_manager t))) ->
   NoDup (dict_keys (preview_frames (window_manager (one_click_import scan t))))) /\
  (exists added skipped : nat,
     (added + skipped = length scan)%nat /\
     get_active_window_count (window_manager (one_click_import scan t)) =
       (get_active_window_count (window_manager t) + added)%nat) /\
  pending_requests (window_manager (one_click_import scan t)) =
    pending_requests (window_manager t) /\
  active_count_label (one_click_import scan t) =
    get_active_window_count (window_manager (one_click_import scan t)) /\
  status_label (one_click_import scan t) =
    StatusCapturing (get_active_window_count (window_manager (one_click_import scan t)))
                    (refresh_rate (window_manager (one_click_import scan t))).
Proof.
  intros Hne.
  destruct (one_click_import_loop scan t Hne)
    as (t1 & added & skipped & Hrun & Hw & _ & Hlabel & Hstatus).
  destruct (import_windows_spec scan (tab_emit [TabLog TabLogImportStarted] t) 0%nat 0%nat)
    as (t1' & a1 & s1 & Hrun' & Hsum & Hcnt & Hold & Hmem & Hnd & Hp & _).
  rewrite Hrun in Hrun'. injection Hrun' as <- <- <-. simpl in *.
  rewrite Hw. split; [exact Hmem|]. split; [exact Hold|]. split; [exact Hnd|].
  split; [exists added, skipped; split; lia|]. split; [exact Hp|]. split; [exact Hlabel|].
  rewrite Hstatus.
  destruct (get_active_window_count (window_manager t1)) as [|n] eqn:Hcount; [|reflexivity].
  exfalso. destruct scan as [|[[wid title] name] scan]; [congruence|].
  assert (Hin : dict_mem wid (preview_frames (window_manager t1)) = true)
    by (apply Hmem; right; now left).
  unfold get_active_window_count in Hcount.
  destruct (preview_frames (window_manager t1)); [discriminate Hin | discriminate Hcount].
Qed.

Lemma import_windows_all_previewed (scan : list (string * string * string)) :
  forall t (a s : nat),
    (forall k, k ∈ scanned_ids scan ->
               dict_mem k (preview_frames (window_manager t)) = true) ->
    fold_left import_window scan (t, a, s) = (t, a, (s + length scan)%nat).
Proof.
  induction scan as [|[[wid title] name] scan IH]; intros t a s Hall.
  - simpl. now rewrite Nat.add_0_r.
  - cbn [fold_left]. unfold import_window at 2.
    rewrite (Hall wid) by now left.
    rewrite IH by (intros k Hk; apply Hall; now right).
    simpl. f_equal. lia.
Qed.

(** X14.  Importing windows that are all previewed already changes nothing in
    the manager: no widget is created and no callback registered.  So a
    second [one_click_import] of the same scan is without effect on it. *)
Theorem one_click_import_skips_previewed_windows
    (scan : list (string * string * string)) t :
  ((forall k, k ∈ scanned_ids scan ->
              dict_mem k (preview_frames (window_manager t)) = true) ->
   window_manager (one_click_import scan t) = window_manager t) /\
  window_manager (one_click_import scan (one_click_import scan t)) =
    window_manager (one_click_import scan t).
Proof.
  assert (Hskip : forall t0 : MainTab B D,
            (forall k, k ∈ scanned_ids scan ->
                       dict_mem k (preview_frames (window_manager t0)) = true) ->
            window_manager (one_click_import scan t0) = window_manager t0).
  { intros t0 Hall. destruct scan as [|win rest] eqn:Hscan; [reflexivity|].
    rewrite <- Hscan in *.
    assert (Hne : scan <> []) by (rewrite Hscan; discriminate).
    destruct (one_click_import_loop scan t0 Hne) as (t1 & a1 & s1 & Hrun & Hw & _).
    rewrite import_windows_all_previewed in Hrun by exact Hall.
    injection Hrun as <- _ _. now rewrite Hw. }
  split; [apply Hskip|]. apply Hskip.
  destruct scan as [|win rest] eqn:Hscan; [intros k Hk; inversion Hk|].
  rewrite <- Hscan in *.
  assert (Hne : scan <> []) by (rewrite Hscan; discriminate).
  destruct (one_click_import_loop scan t Hne) as (t1 & a1 & s1 & Hrun & Hw & _).
  destruct (import_windows_spec scan (tab_emit [TabLog TabLogImportStarted] t) 0%nat 0%nat)
    as (t1' & a1' & s1' & Hrun' & _ & _ & _ & Hmem & _).
  rewrite Hrun in Hrun'. injection Hrun' as <- <- <-.
  intros k Hk. rewrite Hw. apply Hmem. now right.
Qed.

Lemma dict_get_map_values (g : WindowPreviewWidget -> WindowPreviewWidget)
    (d : list (string * WindowPreviewWidget)) k :
  dict_get k (map (fun kf => (fst kf, g (snd kf))) d) = option_map g (dict_get k d).
Proof.
  induction d as [|[k0 f0] d IH]; simpl; [reflexivity|].
  destruct (decide (k0 = k)); [reflexivity | exact IH].
Qed.

Lemma visible_items_hidden (ancestors_visible : bool)
    (d : list (string * WindowPreviewWidget)) :
  visible_items (map (fun kf => (fst kf, setVisible ancestors_visible false (snd kf))) d) = [].
Proof. induction d as [|[k0 f0] d IH]; simpl; [reflexivity | exact IH]. Qed.

Lemma visible_items_off_screen (v : bool) (d : list (string * WindowPreviewWidget)) :
  visible_items (map (fun kf => (fst kf, setVisible false v (snd kf))) d) = [].
Proof.
  induction d as [|[k0 f0] d IH]; simpl; [reflexivity|].
  rewrite andb_false_r. exact IH.
Qed.

Lemma visible_items_shown (d : list (string * WindowPreviewWidget)) :
  visible_items (map (fun kf => (fst kf, setVisible true true (snd kf))) d) =
  map (fun kf => (fst kf, zoom_factor (snd kf))) d.
Proof. induction d as [|[k0 f0] d IH]; simpl; [reflexivity | now rewrite IH]. Qed.

Lemma request_captures_nothing_visible (d : list (string * WindowPreviewWidget)) :
  forall w, visible_items d = [] -> fold_left request_capture d w = w.
Proof.
  induction d as [|[k0 f0] d IH]; intros w Hv; [reflexivity|].
  simpl in Hv. cbn [fold_left]. unfold request_capture at 2.
  destruct (isVisible f0); [discriminate|]. now apply IH.
Qed.

(** X15.  [toggle_thumbnails_visibility] flips the flag and calls
    [setVisible] with the new flag on every preview, changing nothing else
    of a widget.  After hiding, no preview is visible, on screen or not,
    and the submissions of a tick do nothing: no capture is requested and
    no request recorded.  After showing, every preview is visible and
    submitted for when the container of the previews is on screen; when it
    is not, no preview is visible and nothing is submitted. *)
Theorem hidden_thumbnails_are_not_captured (on_screen : bool) t :
  _thumbnails_visible (toggle_thumbnails_visibility on_screen t) =
    negb (_thumbnails_visible t) /\
  (forall k,
     dict_get k (preview_frames (window_manager (toggle_thumbnails_visibility on_screen t))) =
     option_map (setVisible on_screen (negb (_thumbnails_visible t)))
                (dict_get k (preview_frames (window_manager t)))) /\
  dict_keys (preview_frames (window_manager (toggle_thumbnails_visibility on_screen t))) =
    dict_keys (preview_frames (window_manager t)) /\
  (_thumbnails_visible t = true ->
   visible_items
     (preview_frames (window_manager (toggle_thumbnails_visibility on_screen t))) = [] /\
   request_captures (window_manager (toggle_thumbnails_visibility on_screen t)) =
     window_manager (toggle_thumbnails_visibility on_screen t)) /\
  (_thumbnails_visible t = false -> on_screen = true ->
   visible_items
     (preview_frames (window_manager (toggle_thumbnails_visibility on_screen t))) =
     map (fun kf => (fst kf, zoom_factor (snd kf))) (preview_frames (window_manager t))) /\
  (on_screen = false ->
   visible_items
     (preview_frames (window_manager (toggle_thumbnails_visibility on_screen t))) = [] /\
   request_captures (window_manager (toggle_thumbnails_visibility on_screen t)) =
     window_manager (toggle_thumbnails_visibility on_screen t)).
Proof.
  unfold toggle_thumbnails_visibility. simpl.
  split; [reflexivity|]. split; [intros k; apply dict_get_map_values|].
  split. { unfold dict_keys. rewrite map_map. reflexivity. }
  split; [|split].
  - intros ->. simpl. split; [apply visible_items_hidden|].
    unfold request_captures. simpl.
    apply request_captures_nothing_visible, visible_items_hidden.
  - intros -> ->. simpl. apply visible_items_shown.
  - intros ->. split; [apply visible_items_off_screen|].
    unfold request_captures. simpl.
    apply request_captures_nothing_visible, visible_items_off_screen.
Qed.

Lemma remove_window_keys_subset wid w k :
  k ∈ dict_keys (preview_frames (remove_window wid w)) ->
  k ∈ dict_keys (preview_frames w) /\ k <> wid.
Proof.
  intros Hk. split.
  - unfold remove_window in Hk. destruct (dict_mem wid (preview_frames w)); simpl in Hk;
      [now apply (dict_keys_pop_subset k wid) | exact Hk].
  - intros ->. apply dict_mem_keys in Hk. now rewrite remove_window_mem in Hk.
Qed.

Lemma remove_window_untouched wid w :
  pending_requests (remove_window wid w) = pending_requests w /\
  capture_system (remove_window wid w) = capture_system w /\
  refresh_rate (remove_window wid w) = refresh_rate w /\
  capture_timer (remove_window wid w) = capture_timer w.
Proof.
  unfold remove_window. destruct (dict_mem wid (preview_frames w)); simpl; auto.
Qed.

(** Removing every id of a list that covers the previewed ids leaves no
    preview. *)
Lemma remove_windows_covering (ids : list string) :
  forall w,
    (forall k, k ∈ dict_keys (preview_frames w) -> k ∈ ids) ->
    preview_frames (fold_left (fun w wid => remove_window wid w) ids w) = [] /\
    pending_requests (fold_left (fun w wid => remove_window wid w) ids w) =
      pending_requests w /\
    refresh_rate (fold_left (fun w wid => remove_window wid w) ids w) = refresh_rate w.
Proof.
  induction ids as [|i ids IH]; intros w Hcover; simpl.
  - split; [|auto]. destruct (preview_frames w) as [|[k0 f0] d]; [reflexivity|].
    exfalso. specialize (Hcover k0 ltac:(now left)). inversion Hcover.
  - destruct (remove_window_untouched i w) as (Hp & _ & Hr & _).
    destruct (IH (remove_window i w)) as (Hf1 & Hp1 & Hr1).
    { intros k Hk. apply remove_window_keys_subset in Hk as [Hk Hne].
      apply Hcover in Hk. apply elem_of_cons in Hk as [->|Hk]; [congruence | exact Hk]. }
    split; [exact Hf1|]. split; congruence.
Qed.

(** With one binding per id, removing the previewed ids in their order
    unregisters each of them once, in that order. *)
Lemma remove_windows_unregisters (d : list (string * WindowPreviewWidget)) :
  forall w,
    preview_frames w = d -> NoDup (dict_keys d) ->
    unregister_calls (trace (fold_left (fun w wid => remove_window wid w) (dict_keys d) w)) =
    unregister_calls (trace w) ++ dict_keys d.
Proof.
  induction d as [|[k0 f0] d IH]; intros w Hd Hnd; simpl.
  - now rewrite app_nil_r.
  - apply NoDup_cons in Hnd as [Hnot Hnd].
    assert (Hgone : dict_pop k0 d = d).
    { apply dict_pop_absent, dict_mem_false_get.
      destruct (dict_mem k0 d) eqn:Hk; [|reflexivity].
      apply dict_mem_keys in Hk. contradiction. }
    assert (Hstep : preview_frames (remove_window k0 w) = d /\
                    unregister_calls (trace (remove_window k0 w)) =
                      unregister_calls (trace w) ++ [k0]).
    { unfold remove_window, dict_mem. rewrite Hd. simpl.
      destruct (decide (k0 = k0)); [|congruence]. simpl. rewrite Hd. simpl.
      destruct (decide (k0 = k0)); [|congruence]. split; [exact Hgone|].
      unfold unregister_calls. rewrite <- !app_assoc, omap_app. reflexivity. }
    destruct Hstep as (Hf & Hu). rewrite (IH _ Hf Hnd), Hu, <- app_assoc. reflexivity.
Qed.

(** X16.  [_remove_all_windows], confirmed: no preview is left, each previewed id
    was unregistered once, in the order of the previews, the pending
    requests are as before, and the status bar says so.  Declined, or with
    nothing previewed, it leaves the manager alone. *)
Theorem remove_all_windows_empties_the_registry t :
  preview_frames (window_manager (_remove_all_windows true t)) = [] /\
  get_active_window_count (window_manager (_remove_all_windows true t)) = 0%nat /\
  pending_requests (window_manager (_remove_all_windows true t)) =
    pending_requests (window_manager t) /\
  (NoDup (dict_keys (preview_frames (window_manager t))) ->
   unregister_calls (trace (window_manager (_remove_all_windows true t))) =
   unregister_calls (trace (window_manager t)) ++
   dict_keys (preview_frames (window_manager t))) /\
  (preview_frames (window_manager t) <> [] ->
   active_count_label (_remove_all_windows true t) = 0%nat /\
   status_label (_remove_all_windows true t) = StatusNoWindowsInPreview) /\
  window_manager (_remove_all_windows false t) = window_manager t /\
  (forall yes, preview_frames (window_manager t) = [] -> _remove_all_windows yes t = t).
Proof.
  unfold _remove_all_windows.
  destruct (preview_frames (window_manager t)) as [|kf d] eqn:Hd.
  - rewrite Hd. unfold get_active_window_count, unregister_calls. rewrite Hd. simpl.
    split; [reflexivity|]. split; [reflexivity|]. split; [reflexivity|].
    split; [intros _; now rewrite app_nil_r|]. split; [congruence|]. auto.
  - rewrite <- Hd. simpl.
    destruct (remove_windows_covering (dict_keys (preview_frames (window_manager t)))
                (window_manager t) ltac:(auto)) as (Hf & Hp & _).
    unfold get_active_window_count. rewrite Hf. simpl.
    split; [reflexivity|]. split; [reflexivity|]. split; [exact Hp|].
    split; [intros Hnd; now apply remove_windows_unregisters|].
    split; [auto|]. split; [reflexivity|]. intros yes Hempty. congruence.
Qed.

Lemma minimize_others_spec (focused_id : string) (ids : list string) :
  forall (b : B) (n : nat),
    minimize_calls (snd (fst (minimize_others focused_id ids b n)))
      `prefix_of` filter (fun k => k <> focused_id) ids /\
    Forall (fun e => exists k, e = CallMinimizeWindow k)
           (snd (fst (minimize_others focused_id ids b n))) /\
    (forall m, snd (minimize_others focused_id ids b n) = Returned m ->
       minimize_calls (snd (fst (minimize_others focused_id ids b n))) =
         filter (fun k => k <> focused_id) ids /\
       (n <= m <= n + length (filter (fun k => k <> focused_id) ids))%nat).
Proof.
  induction ids as [|i ids IH]; intros b n; simpl.
  - split; [reflexivity|]. split; [constructor|].
    intros m Hm. injection Hm as <-. split; [reflexivity|]. simpl. lia.
  - destruct (decide (i = focused_id)) as [->|Hne].
    + rewrite filter_cons_False by tauto. apply IH.
    + rewrite filter_cons_True by exact Hne.
      destruct (minimize_window b i) as [b1 [ok|e]].
      * destruct (IH b1 (if ok then S n else n)) as (Hpre & Hev & Hall).
        destruct (minimize_others focused_id ids b1 (if ok then S n else n))
          as [[b2 evs] res]. simpl in *.
        split; [now apply prefix_cons|].
        split; [apply Forall_cons_2; [now exists i | exact Hev]|].
        intros m Hm. destruct (Hall m Hm) as (Heq & Hbound).
        split; [now rewrite Heq|]. destruct ok; lia.
      * simpl. split; [apply prefix_cons, prefix_nil|].
        split; [apply Forall_cons_2; [now exists i | constructor] | discriminate].
Qed.

(** X17.  [minimize_inactive_windows] asks the capture system to minimize
    previewed windows only, in the order of the previews, and never the
    window whose id [xdotool] printed: the calls are an initial part of the
    previewed ids other than the focused one, and all of them when the
    count of minimized windows is logged (no call raised); that count is
    at most the number of calls.  Without a focused window (the tool
    failed or raised) no window is minimized.  The previews and the
    pending requests are not touched. *)
Theorem focused_window_is_never_minimized (strip : string -> string)
    (xdotool : Outcome (Z * string)) t :
  exists evs,
    tab_trace (minimize_inactive_windows strip xdotool t) = tab_trace t ++ evs /\
    (forall returncode stdout,
       xdotool = Returned (returncode, stdout) ->
       minimize_calls evs `prefix_of`
         filter (fun k => k <> strip stdout) (dict_keys (preview_frames (window_manager t))) /\
       (returncode <> 0 -> minimize_calls evs = []) /\
       (forall m, TabLog (TabLogMinimized m) ∈ evs ->
          minimize_calls evs =
            filter (fun k => k <> strip stdout)
                   (dict_keys (preview_frames (window_manager t))) /\
          (m <= length (minimize_calls evs))%nat)) /\
    (forall e, xdotool = Raised e -> minimize_calls evs = []) /\
    preview_frames (window_manager (minimize_inactive_windows strip xdotool t)) =
      preview_frames (window_manager t) /\
    pending_requests (window_manager (minimize_inactive_windows strip xdotool t)) =
      pending_requests (window_manager t).
Proof.
  unfold minimize_inactive_windows.
  destruct xdotool as [[returncode stdout]|e].
  2:{ eexists. split; [reflexivity|]. split; [discriminate|]. auto. }
  destruct (Z.eqb_spec returncode 0) as [->|Hrc].
  2:{ eexists. split; [reflexivity|]. split; [|auto].
      intros rc out Heq. injection Heq as <- <-. split; [apply prefix_nil|].
      split; [reflexivity|]. intros m Hm.
      apply list_elem_of_singleton in Hm. discriminate. }
  pose proof (minimize_others_spec (strip stdout)
                (dict_keys (preview_frames (window_manager t)))
                (capture_system (window_manager t)) 0%nat) as (Hpre & Hev & Hall).
  destruct (minimize_others _ _ _ _) as [[b' evs] [m|e]]; simpl in *.
  - exists (evs ++ [TabLog (TabLogMinimized m)]).
    split; [now rewrite <- app_assoc|].
    assert (Hcalls : minimize_calls (evs ++ [TabLog (TabLogMinimized m)]) = minimize_calls evs)
      by (unfold minimize_calls; rewrite omap_app; apply app_nil_r).
    rewrite Hcalls. split; [|split; [discriminate | split; reflexivity]].
    intros rc out Heq. injection Heq as <- <-.
    split; [exact Hpre|]. split; [congruence|].
    intros m' Hm'. destruct (Hall m eq_refl) as (Heq & Hb).
    split; [exact Heq|].
    apply elem_of_app in Hm' as [Hm'|Hm'].
    + rewrite Forall_forall in Hev. destruct (Hev _ Hm') as [k Hk]. discriminate.
    + apply list_elem_of_singleton in Hm'. injection Hm' as ->. rewrite Heq. lia.
  - exists (evs ++ [TabLog (TabLogMinimizeError e)]).
    split; [now rewrite <- app_assoc|].
    assert (Hcalls : minimize_calls (evs ++ [TabLog (TabLogMinimizeError e)]) = minimize_calls evs)
      by (unfold minimize_calls; rewrite omap_app; apply app_nil_r).
    rewrite Hcalls. split; [|split; [discriminate | split; reflexivity]].
    intros rc out Heq. injection Heq as <- <-.
    split; [exact Hpre|]. split; [congruence|].
    intros m' Hm'. exfalso.
    apply elem_of_app in Hm' as [Hm'|Hm'].
    + rewrite Forall_forall in Hev. destruct (Hev _ Hm') as [k Hk]. discriminate.
    + apply list_elem_of_singleton in Hm'. discriminate.
Qed.

(** X18.  The count on the status bar is the number of previews from [__init__]
    on: every operation of the tab that changes the registry ends with
    [_update_status], and the others do not change the number of
    previews. *)
Theorem status_bar_count_stays_current :
  (forall (cs : B) (det : D), status_bar_current (MainTab_init cs det)) /\
  (forall t,
      status_bar_current t ->
      (forall scan, status_bar_current (one_click_import scan t)) /\
      (forall wid, status_bar_current (_on_window_removed wid t)) /\
      (forall yes, status_bar_current (_remove_all_windows yes t)) /\
      (forall on_screen, status_bar_current (toggle_thumbnails_visibility on_screen t)) /\
      (forall value, status_bar_current (_on_refresh_rate_changed value t)) /\
      (forall strip xdotool, status_bar_current (minimize_inactive_windows strip xdotool t))).
Proof.
  split; [intros cs det; reflexivity|].
  intros t Ht. unfold status_bar_current in *.
  split.
  { intros [|win scan]; [exact Ht|].
    destruct (one_click_import_loop (win :: scan) t ltac:(discriminate))
      as (t1 & a1 & s1 & _ & Hw & _ & Hl & _).
    now rewrite Hl, Hw. }
  split; [intros wid; reflexivity|].
  split.
  { intros yes. unfold _remove_all_windows.
    destruct (preview_frames (window_manager t)) as [|kf d] eqn:Hd; [exact Ht|].
    destruct yes; [reflexivity | exact Ht]. }
  split.
  { intros on_screen.
    unfold toggle_thumbnails_visibility, get_active_window_count in *. simpl.
    now rewrite length_map. }
  split.
  { intros value. unfold _on_refresh_rate_changed, set_refresh_rate, get_active_window_count in *.
    simpl. now destruct (isActive (capture_timer (window_manager t))). }
  intros strip xdotool. unfold minimize_inactive_windows.
  destruct xdotool as [[returncode stdout]|e]; [|exact Ht].
  destruct (returncode =? 0)%Z; [|exact Ht].
  destruct (minimize_others _ _ _ _) as [[b' evs] [m|e]]; exact Ht.
Qed.

End TabFacts.

(** * The label of a preview *)

(** X19.  A label set with [set_custom_label] and saved with the settings comes
    back when a widget for the same character loads the saved labels: the
    display name is the same, "label (character)" for a label that is not
    empty and the character name for no label or an empty one (whose entry
    is taken out of the saved labels).  The labels of other characters are
    not touched, the info label shows the display name, and without a
    settings manager nothing is saved. *)
Theorem custom_label_survives_save_and_load
    (label : option string) (labels : gmap string string) (p q : LabelledPreview) :
  character_name (labelled q) = character_name (labelled p) ->
  exists saved,
    snd (set_custom_label label (Some labels) p) = Some saved /\
    _get_display_name (load_custom_label saved q) =
      _get_display_name (fst (fst (set_custom_label label (Some labels) p))) /\
    saved !! character_name (labelled p) = (if truthy label then label else None) /\
    (forall other, other <> character_name (labelled p) -> saved !! other = labels !! other) /\
    info_label (fst (fst (set_custom_label label (Some labels) p))) =
      _get_display_name (fst (fst (set_custom_label label (Some labels) p))) /\
    snd (set_custom_label label None p) = None.
Proof.
  intros Hname. unfold set_custom_label. simpl. eexists. split; [reflexivity|].
  unfold _get_display_name, load_custom_label. simpl. rewrite Hname.
  destruct label as [[|c l]|]; simpl.
  - assert (Hgone : (match labels !! character_name (labelled p) with
                     | Some _ => delete (character_name (labelled p)) labels
                     | None => labels
                     end) !! character_name (labelled p) = None).
    { destruct (labels !! character_name (labelled p)) eqn:Hl;
        [apply lookup_delete_eq | exact Hl]. }
    rewrite Hgone. simpl. repeat split.
    intros other Hother. destruct (labels !! character_name (labelled p));
      [now apply lookup_delete_ne | reflexivity].
  - rewrite lookup_insert_eq. simpl. repeat split.
    intros other Hother. now apply lookup_insert_ne.
  - assert (Hgone : (match labels !! character_name (labelled p) with
                     | Some _ => delete (character_name (labelled p)) labels
                     | None => labels
                     end) !! character_name (labelled p) = None).
    { destruct (labels !! character_name (labelled p)) eqn:Hl;
        [apply lookup_delete_eq | exact Hl]. }
    rewrite Hgone. simpl. repeat split.
    intros other Hother. destruct (labels !! character_name (labelled p));
      [now apply lookup_delete_ne | reflexivity].
Qed.

Lemma custom_label_survives_save_and_load_witness :
  exists saved,
    snd (set_custom_label (Some "Scout") (Some ∅) (mkLabelled shown_w1 None "" "")) = Some saved /\
    _get_display_name (load_custom_label saved (mkLabelled shown_w1 None "" "")) =
      "Scout (Alice)".
Proof.
  destruct (custom_label_survives_save_and_load (Some "Scout") ∅
              (mkLabelled shown_w1 None "" "") (mkLabelled shown_w1 None "" "") eq_refl)
    as (saved & Hsaved & Hname & _).
  exists saved. split; [exact Hsaved|]. rewrite Hname. reflexivity.
Defined.

Lemma one_click_import_previews_every_scanned_window_witness :
  dict_mem "0x02"
    (preview_frames (window_manager (one_click_import a_scan (tab_of (two_previews [] [] [])))))
    = true /\
  status_label (one_click_import a_scan (tab_of (two_previews [] [] []))) =
    StatusCapturing 4 30.
Proof.
  destruct (one_click_import_previews_every_scanned_window a_scan
              (tab_of (two_previews [] [] [])) ltac:(discriminate))
    as (Hmem & _ & _ & _ & _ & _ & Hstatus).
  split.
  - apply Hmem. right. apply (bool_decide_unpack _). vm_compute. reflexivity.
  - rewrite Hstatus. reflexivity.
Defined.

Lemma one_click_import_skips_previewed_windows_witness :
  window_manager (one_click_import [("w1", "EVE - Alice", "Alice")]
                    (tab_of (two_previews [] [] []))) =
  window_manager (tab_of (two_previews [] [] [])).
Proof.
  destruct (one_click_import_skips_previewed_windows [("w1", "EVE - Alice", "Alice")]
              (tab_of (two_previews [] [] []))) as (Hskip & _).
  apply Hskip. intros k Hk. apply list_elem_of_singleton in Hk. rewrite Hk. reflexivity.
Defined.

Lemma hidden_thumbnails_are_not_captured_witness :
  request_captures
    (window_manager
       (toggle_thumbnails_visibility true (tab_of (two_previews [Returned "r1"] [] [])))) =
  window_manager
    (toggle_thumbnails_visibility true (tab_of (two_previews [Returned "r1"] [] []))) /\
  visible_items
    (preview_frames
       (window_manager
          (toggle_thumbnails_visibility true
             (toggle_thumbnails_visibility true
                (tab_of (two_previews [Returned "r1"] [] [])))))) =
  [("w1", (3 # 10)%Q); ("w2", (3 # 10)%Q)] /\
  visible_items
    (preview_frames
       (window_manager
          (toggle_thumbnails_visibility false
             (toggle_thumbnails_visibility true
                (tab_of (two_previews [Returned "r1"] [] [])))))) = [].
Proof.
  destruct (hidden_thumbnails_are_not_captured true
              (tab_of (two_previews [Returned "r1"] [] [])))
    as (_ & _ & _ & Hhide & _).
  destruct (hidden_thumbnails_are_not_captured true
              (toggle_thumbnails_visibility true (tab_of (two_previews [Returned "r1"] [] []))))
    as (_ & _ & _ & _ & Hshow & _).
  destruct (hidden_thumbnails_are_not_captured false
              (toggle_thumbnails_visibility true (tab_of (two_previews [Returned "r1"] [] []))))
    as (_ & _ & _ & _ & _ & Hoff).
  split; [apply Hhide; reflexivity|].
  split; [apply Hshow; reflexivity | apply Hoff; reflexivity].
Defined.

Lemma remove_all_windows_empties_the_registry_witness :
  unregister_calls
    (trace (window_manager (_remove_all_windows true (tab_of (two_previews [] [] []))))) =
    ["w1"; "w2"] /\
  status_label (_remove_all_windows true (tab_of (two_previews [] [] []))) =
    StatusNoWindowsInPreview.
Proof.
  destruct (remove_all_windows_empties_the_registry (tab_of (two_previews [] [] [])))
    as (_ & _ & _ & Hunreg & Hbar & _).
  split.
  - apply Hunreg. apply (bool_decide_unpack _). vm_compute. reflexivity.
  - apply Hbar. discriminate.
Defined.

Lemma focused_window_is_never_minimized_witness :
  exists evs,
    tab_trace (minimize_inactive_windows (fun s => s) (Returned (0, "w1"))
                 (tab_of (two_previews [] [] []))) = [] ++ evs /\
    minimize_calls evs `prefix_of` ["w2"].
Proof.
  destruct (focused_window_is_never_minimized (fun s => s) (Returned (0, "w1"))
              (tab_of (two_previews [] [] []))) as (evs & Htrace & Hfocus & _).
  exists evs. split; [exact Htrace|].
  destruct (Hfocus 0 "w1" eq_refl) as (Hprefix & _). exact Hprefix.
Defined.

Lemma status_bar_count_stays_current_witness :
  status_bar_current
    (_on_window_removed "0x01"
       (one_click_import a_scan (MainTab_init (mkScripted [] []) (mkDetector [] ∅)))).
Proof.
  destruct (status_bar_count_stays_current (B := ScriptedCapture) (D := ScriptedDetector))
    as (Hinit & Hstep).
  destruct (Hstep _ (Hinit (mkScripted [] []) (mkDetector [] ∅))) as (Himport & _).
  destruct (Hstep _ (Himport a_scan)) as (_ & Hremoved & _).
  exact (Hremoved "0x01").
Defined.

Lemma recorded_requests_are_for_visible_previews_witness :
  (pending_requests (two_previews [Returned "r9"] [] []) !! "r9" = Some "w1" \/
   exists scale,
     ("w1", scale) ∈ visible_items (preview_frames (two_previews [Returned "r9"] [] []))) /\
  pending_requests (request_captures (two_previews [Raised "busy"] [] [])) =
    pending_requests (two_previews [Raised "busy"] [] []).
Proof.
  destruct (recorded_requests_are_for_visible_previews (two_previews [Returned "r9"] [] []))
    as (_ & Hfrom & _).
  destruct (recorded_requests_are_for_visible_previews (two_previews [Raised "busy"] [] []))
    as (_ & _ & _ & Hfailed).
  split.
  - apply (Hfrom "r9" "w1"). vm_compute. reflexivity.
  - apply Hfailed. apply Forall_cons_2; [now exists "busy" | apply Forall_nil_2].
Defined.

Lemma tick_submits_once_per_visible_target_witness :
  exists w',
    _capture_cycle 1 (two_previews [Returned "r1"] [] []) = Some w' /\
    all_submit_calls (trace w') = [("w1", (3 # 10)%Q)] /\
    submit_calls "w1" (trace w') = [(3 # 10)%Q] /\
    submit_calls "w2" (trace w') = [] /\
    capture_system w' = mkScripted [] [] /\
    pending_requests w' !! "r1" = Some "w1".
Proof.
  destruct (tick_submits_once_per_visible_target (two_previews [Returned "r1"] [] [])
              [] (mkScripted [] []))
    as (w' & Hrun & Hall & Hone & _ & _ & Hrec & Hb & Hp).
  - apply (bool_decide_unpack _). vm_compute. reflexivity.
  - apply yields_empty. reflexivity.
  - exists w'. split; [exact Hrun|]. split; [exact Hall|].
    split; [exact (Hone "w1")|]. split; [exact (Hone "w2")|].
    split; [exact Hb|]. rewrite Hp, Hrec. vm_compute. reflexivity.
Defined.

Lemma delivery_ignores_pending_requests_witness :
  pending_requests (set_pending_requests ∅ high_alert_pending) !! "r9" = None /\
  preview_pixmap "w1"
    (process_result ("r9", "w1", Some a_frame) (set_pending_requests ∅ high_alert_pending)) =
    Some (Some a_frame) /\
  preview_alert_level "w1"
    (process_result ("r9", "w1", Some a_frame) (set_pending_requests ∅ high_alert_pending)) =
    Some (Some HIGH) /\
  preview_frames
    (process_result ("r9", "w3", Some a_frame) (set_pending_requests ∅ high_alert_pending)) =
    preview_frames high_alert_pending.
Proof.
  destruct (delivery_ignores_pending_requests "r9" "w1" (Some a_frame) high_alert_pending ∅)
    as (_ & _ & _ & _ & Hdelivered & _).
  destruct (delivery_ignores_pending_requests "r9" "w3" (Some a_frame) high_alert_pending ∅)
    as (_ & _ & _ & _ & _ & _ & Habsent).
  destruct (Hdelivered shown_w1 eq_refl) as (_ & _ & Hshown & Halert).
  split; [reflexivity|].
  split; [exact (Hshown a_frame eq_refl)|].
  split; [exact (Halert a_frame HIGH eq_refl eq_refl)|].
  destruct (Habsent eq_refl) as (Hsame & _). exact Hsame.
Defined.
